(** * The multi-agent coordinator of [coordinator.py], as a shallow embedding

    The Python module has three parts: the table [SUBAGENT_TEMPLATES], the
    class [Subagent] (a handler that runs one task) and the class
    [CoordinatorAgent] (classification, dispatch, token accounting).

    Modelling choices.
    - Python [int] is [Z]; [//] is [Z.div] (both floor).
    - Python [str] is [string].  [str.lower] is a parameter of the
      development ([lower]); [ascii_lower] is its value on ASCII text.
    - Python [float] is a rational: every finite double is one.  Readings
      of [time.time()] come from an oracle that is part of the world.  An
      operation on floats gives the double nearest to the exact result
      ([round_double], ties to even); overflow to infinity is not
      modelled.  A float is compared with an int exactly, as Python does.
    - Objects are mutable: [Subagent] instances live in a heap and are
      handled through references; the one [CoordinatorAgent] is a slot of
      the world.
    - Exceptions are outcomes of a state-and-error monad in which the state
      survives a raise, as it does in Python.
    - [process_request] returns [json.dumps(d, indent=2)] for a dict [d]; the
      model returns [d] itself (an insertion-ordered association list).
    - The world carries a trace of method calls.  The trace is
      instrumentation: no modelled function reads it. *)

From Stdlib Require Import ZArith QArith String Ascii List Lia Bool.
From Stdlib Require Import DecimalString.
From stdpp Require Import base list strings gmap.

Local Open Scope string_scope.
Local Open Scope Z_scope.

(** ** Python values and dicts *)

Inductive PyVal : Type :=
| PyStr (s : string)
| PyInt (n : Z)
| PyBool (b : bool).

(** A dict with string keys, in insertion order. *)
Definition Dict (V : Type) : Type := list (string * V).

Fixpoint dict_lookup {V} (k : string) (d : Dict V) : option V :=
  match d with
  | [] => None
  | (k', v) :: d' => if String.eqb k k' then Some v else dict_lookup k d'
  end.

(** [d[k] = v]: an existing key keeps its position. *)
Fixpoint dict_set {V} (k : string) (v : V) (d : Dict V) : Dict V :=
  match d with
  | [] => [(k, v)]
  | (k', v') :: d' =>
      if String.eqb k k' then (k, v) :: d' else (k', v') :: dict_set k v d'
  end.

(** [d.get(k, dflt)] *)
Definition dict_get {V} (d : Dict V) (k : string) (dflt : V) : V :=
  match dict_lookup k d with
  | Some v => v
  | None => dflt
  end.

(** [k in d] *)
Definition dict_mem {V} (k : string) (d : Dict V) : bool :=
  match dict_lookup k d with
  | Some _ => true
  | None => false
  end.

(** [str(n)] for an int. *)
Definition str_of_int (n : Z) : string :=
  NilZero.string_of_int (Z.to_int n).

(** ** Strings: [str.lower] on ASCII text and the [in] operator *)

(** ['A'] to ['Z'] *)
Definition is_upper (c : ascii) : bool :=
  let n := N_of_ascii c in (65 <=? n)%N && (n <=? 90)%N.

Definition lower_char (c : ascii) : ascii :=
  if is_upper c then ascii_of_N (N_of_ascii c + 32) else c.

Fixpoint ascii_lower (s : string) : string :=
  match s with
  | EmptyString => EmptyString
  | String c s' => String (lower_char c) (ascii_lower s')
  end.

(** [word in s]: [word] occurs in [s] as a contiguous substring. *)
Fixpoint contains (word s : string) : bool :=
  String.prefix word s ||
  match s with
  | EmptyString => false
  | String _ s' => contains word s'
  end.

(** ** Floats *)

(** [a > b] *)
Definition Qgt_bool (a b : Q) : bool := negb (Qle_bool a b).

(** [n / d] rounded to the nearest integer, ties to the even one
    ([d] positive). *)
Definition round_half_even (n d : Z) : Z :=
  let q := n / d in
  let r := n mod d in
  if 2 * r <? d then q
  else if d <? 2 * r then q + 1
  else if Z.even q then q
  else q + 1.

(** The integer part of the binary logarithm of [n / d] ([n] and [d]
    positive). *)
Definition floor_log2_ratio (n d : Z) : Z :=
  let k := Z.log2 n - Z.log2 d in
  if d * 2 ^ Z.max 0 k <=? n * 2 ^ Z.max 0 (- k) then k else k - 1.

(** The double nearest to a rational, ties to even: 53 significant bits,
    and steps of [2^-1074] below the normal range. *)
Definition round_double (x : Q) : Q :=
  let n := Qnum x in
  let d := Zpos (Qden x) in
  if n =? 0 then 0%Q
  else
    let a := Z.abs n in
    let e := Z.max (floor_log2_ratio a d - 52) (- 1074) in
    let m :=
      round_half_even (a * 2 ^ Z.max 0 (- e)) (d * 2 ^ Z.max 0 e) in
    if 0 <=? e then inject_Z (Z.sgn n * m * 2 ^ e)
    else (Z.sgn n * m) # Z.to_pos (2 ^ (- e)).
Arguments round_double : simpl never.

(** [a - b] and [a * b] on floats, the float of an int, and the float a
    decimal literal denotes. *)
Definition float_sub (a b : Q) : Q := round_double (a - b).
Definition float_mul (a b : Q) : Q := round_double (a * b).
Definition float_of_int (n : Z) : Q := round_double (inject_Z n).
Definition float_literal (decimal : Q) : Q := round_double decimal.

(** ** Exceptions *)

(** The exception classes that matter to the handlers of
    [_handle_with_subagent].  [OtherException] is any other subclass of
    [Exception]; [NonException] is a [BaseException] outside [Exception]
    (such as [KeyboardInterrupt]), which [except Exception] lets through. *)
Inductive ExnClass : Type :=
| TimeoutError
| RuntimeError
| KeyError
| TypeError
| NameError
| OtherException
| NonException.

Record Exn : Type := mkExn {
  exn_class : ExnClass;
  exn_str : string  (* what [str(e)] gives *)
}.

Definition isinstance_TimeoutError (e : Exn) : bool :=
  match exn_class e with
  | TimeoutError => true
  | _ => false
  end.

Definition isinstance_Exception (e : Exn) : bool :=
  match exn_class e with
  | NonException => false
  | _ => true
  end.

Inductive Outcome (A : Type) : Type :=
| Return (a : A)
| Raise (e : Exn).
Arguments Return {A} a.
Arguments Raise {A} e.

(** ** The table of specialist profiles *)

Record Template : Type := mkTemplate {
  tpl_role : string;
  tpl_context_files : list string;
  tpl_data_sources : list string;
  tpl_instructions : string;
  tpl_max_tokens : Z
}.

Definition finance_template : Template := {|
  tpl_role := "Finance Specialist";
  tpl_context_files := ["rules/finance.md"; "rules/reporting.md"];
  tpl_data_sources := ["transactions"; "invoices"];
  tpl_instructions := "
            You are a finance specialist agent.
            - Use accrual accounting
            - Report in USD
            - Include pending items
            - Format: structured data + brief summary
        ";
  tpl_max_tokens := 5000
|}.

Definition developer_template : Template := {|
  tpl_role := "Development Specialist";
  tpl_context_files := ["rules/code-style.md"; "ARCHITECTURE.md"];
  tpl_data_sources := ["git_log"; "open_issues"];
  tpl_instructions := "
            You are a development specialist agent.
            - Review code for patterns and quality
            - Suggest improvements
            - Check against style guide
            - Format: technical summary + recommendations
        ";
  tpl_max_tokens := 8000
|}.

Definition content_template : Template := {|
  tpl_role := "Content Specialist";
  tpl_context_files := ["brand-voice.md"; "content-guidelines.md"];
  tpl_data_sources := ["recent_posts"; "engagement_metrics"];
  tpl_instructions := "
            You are a content specialist agent.
            - Follow brand voice
            - Optimize for engagement
            - Keep it authentic
            - Format: ready-to-publish content
        ";
  tpl_max_tokens := 4000
|}.

Definition SUBAGENT_TEMPLATES : gmap string Template :=
  <["finance" := finance_template]>
  (<["developer" := developer_template]>
  (<["content" := content_template]> ∅)).

(** ** Objects and the world *)

Record SubagentContext : Type := mkSubagentContext {
  role : string;
  task : string;
  instructions : string;
  data : Dict string;
  max_tokens : Z
}.

Record Subagent : Type := mkSubagent {
  context : SubagentContext;
  start_time : Q;
  is_terminated : bool
}.

Record CoordinatorAgent : Type := mkCoordinatorAgent {
  context_size : Z;
  total_tokens_used : Z
}.

(** Method calls on the [Subagent] at a reference, newest first. *)
Inductive Event : Type :=
| EvExecute (r : nat)
| EvSimulate (r : nat)
| EvTerminate (r : nat).

Record World : Type := mkWorld {
  coordinator : CoordinatorAgent;
  clock : nat -> Q;      (* the successive readings of [time.time()] *)
  ticks : nat;           (* how many readings were taken *)
  heap : list Subagent;  (* the [Subagent] objects, by reference *)
  trace : list Event
}.

(** ** The monad: state that survives exceptions *)

Definition M (A : Type) : Type := World -> Outcome A * World.

Definition ret {A} (a : A) : M A := fun w => (Return a, w).

Definition raise {A} (e : Exn) : M A := fun w => (Raise e, w).

Definition bind {A B} (c : M A) (k : A -> M B) : M B :=
  fun w =>
    match c w with
    | (Return a, w') => k a w'
    | (Raise e, w') => (Raise e, w')
    end.

Declare Scope py_scope.
Delimit Scope py_scope with py.
Notation "x <- c ;; k" := (bind c (fun x => k))
  (at level 100, c at next level, right associativity) : py_scope.
Notation "c ;; k" := (bind c (fun _ => k))
  (at level 100, right associativity) : py_scope.
Local Open Scope py_scope.

(** [try: body except TimeoutError/Exception: handlers finally: final].
    [handlers e] is [None] when no [except] clause matches [e]. *)
Definition try_except_finally {A}
    (body : M A) (handlers : Exn -> option (M A)) (final : M unit) : M A :=
  fun w =>
    let '(o, w1) :=
      match body w with
      | (Return a, w') => (Return a, w')
      | (Raise e, w') =>
          match handlers e with
          | Some h => h w'
          | None => (Raise e, w')
          end
      end in
    match final w1 with
    | (Return _, w2) => (o, w2)
    | (Raise e, w2) => (Raise e, w2)
    end.

(** [time.time()] *)
Definition time_time : M Q :=
  fun w =>
    (Return (clock w (ticks w)),
     mkWorld (coordinator w) (clock w) (S (ticks w)) (heap w) (trace w)).

Definition log (ev : Event) : M unit :=
  fun w =>
    (Return tt,
     mkWorld (coordinator w) (clock w) (ticks w) (heap w) (ev :: trace w)).

(** A new object; its reference is its index in the heap. *)
Definition alloc (o : Subagent) : M nat :=
  fun w =>
    (Return (length (heap w)),
     mkWorld (coordinator w) (clock w) (ticks w) (heap w ++ [o])%list (trace w)).

(** Reading through a reference.  References only come from [alloc], so the
    [None] case does not arise in a run of the program. *)
Definition deref (r : nat) : M Subagent :=
  fun w =>
    match heap w !! r with
    | Some o => (Return o, w)
    | None => (Raise (mkExn NameError "unbound reference"), w)
    end.

Definition store (r : nat) (o : Subagent) : M unit :=
  fun w =>
    (Return tt,
     mkWorld (coordinator w) (clock w) (ticks w) (<[r := o]> (heap w)) (trace w)).

Definition get_self : M CoordinatorAgent :=
  fun w => (Return (coordinator w), w).

Definition put_self (c : CoordinatorAgent) : M unit :=
  fun w => (Return tt, mkWorld c (clock w) (ticks w) (heap w) (trace w)).

(** [self.total_tokens_used += n] *)
Definition add_tokens (n : Z) : M unit :=
  self <- get_self ;;
  put_self (mkCoordinatorAgent (context_size self) (total_tokens_used self + n)).

(** ** The program *)

Section Program.

(** [str.lower]. *)
Variable lower : string -> string.

(** The method that [self._simulate_execution()] resolves to.  The class
    defines it as [_simulate_execution] below; a production subclass or a
    test double overrides it ("replace with real LLM call") and may raise. *)
Variable run_task : SubagentContext -> Outcome (Dict PyVal).

(** *** class Subagent *)

(** [Subagent.__init__] *)
Definition Subagent__init__ (context : SubagentContext) : M nat :=
  now <- time_time ;;
  alloc (mkSubagent context now false).

(** [Subagent._simulate_execution], as the class defines it. *)
Definition _simulate_execution (context : SubagentContext) : Dict PyVal :=
  [ ("role", PyStr (role context));
    ("task", PyStr (task context));
    ("result", PyStr ("[Simulated result for: " ++ task context ++ "]"));
    ("tokens_used", PyInt (max_tokens context / 2));
    ("completed", PyBool true) ].

(** [Subagent.execute] *)
Definition execute (self : nat) (timeout : Z) : M (Dict PyVal) :=
  log (EvExecute self) ;;
  this <- deref self ;;
  if is_terminated this then
    raise (mkExn RuntimeError "Subagent already terminated")
  else
    now <- time_time ;;
    if Qgt_bool (float_sub now (start_time this)) (inject_Z timeout) then
      raise (mkExn TimeoutError
               ("Subagent exceeded " ++ str_of_int timeout ++ "s timeout"))
    else
      log (EvSimulate self) ;;
      fun w => (run_task (context this), w).

(** [Subagent.terminate] *)
Definition terminate (self : nat) : M unit :=
  log (EvTerminate self) ;;
  this <- deref self ;;
  store self (mkSubagent (context this) (start_time this) true).

(** *** class CoordinatorAgent *)

(** [CoordinatorAgent.__init__] *)
Definition CoordinatorAgent__init__ : M unit :=
  put_self (mkCoordinatorAgent 2048 0).

(** [any(word in message_lower for word in words)] *)
Definition any_word_in (words : list string) (message_lower : string) : bool :=
  existsb (fun word => contains word message_lower) words.

Definition finance_words : list string :=
  ["revenue"; "finance"; "money"; "profit"].
Definition developer_words : list string :=
  ["code"; "commit"; "pr"; "bug"; "deploy"].
Definition content_words : list string :=
  ["tweet"; "post"; "content"; "write"].
Definition simple_words : list string :=
  ["hi"; "hello"; "help"; "what can you"].

(** [CoordinatorAgent._classify_task] *)
Definition _classify_task (message : string) : string :=
  let message_lower := lower message in
  if any_word_in finance_words message_lower then "finance"
  else if any_word_in developer_words message_lower then "developer"
  else if any_word_in content_words message_lower then "content"
  else if any_word_in simple_words message_lower then "simple"
  else "unknown".

(** [CoordinatorAgent._handle_simple_task] *)
Definition _handle_simple_task (message : string) : M (Dict PyVal) :=
  add_tokens 100 ;;
  self <- get_self ;;
  ret [ ("handler", PyStr "main_agent");
        ("response", PyStr ("Quick answer to: " ++ message));
        ("tokens_used", PyInt (context_size self / 4 + 100)) ].

(** [CoordinatorAgent._fetch_relevant_data]: the dict comprehension. *)
Definition _fetch_relevant_data (sources : list string) : Dict string :=
  fold_left
    (fun d source => dict_set source ("[Sample data from " ++ source ++ "]") d)
    sources [].

(** [SUBAGENT_TEMPLATES[agent_type]] *)
Definition template_subscript (agent_type : string) : M Template :=
  match SUBAGENT_TEMPLATES !! agent_type with
  | Some template => ret template
  | None => raise (mkExn KeyError ("'" ++ agent_type ++ "'"))
  end.

(** [result["result"]] *)
Definition result_subscript (result : Dict PyVal) (key : string) : M PyVal :=
  match dict_lookup key result with
  | Some v => ret v
  | None => raise (mkExn KeyError ("'" ++ key ++ "'"))
  end.

(** The int that [self.total_tokens_used += v] and [... + v] add: a bool
    counts as 0 or 1, a str is a [TypeError]. *)
Definition int_operand (v : PyVal) : M Z :=
  match v with
  | PyInt n => ret n
  | PyBool b => ret (Z.b2z b)
  | PyStr _ =>
      raise (mkExn TypeError
               "unsupported operand type(s) for +=: 'int' and 'str'")
  end.

(** The [except] clauses of [_handle_with_subagent], in order. *)
Definition subagent_handlers (e : Exn) : option (M (Dict PyVal)) :=
  if isinstance_TimeoutError e then
    Some (ret [ ("error", PyStr "Subagent timeout");
                ("fallback",
                 PyStr "Task took too long, please try again or break into smaller steps") ])
  else if isinstance_Exception e then
    Some (ret [ ("error", PyStr (exn_str e));
                ("fallback",
                 PyStr "Something went wrong, please rephrase or try again") ])
  else None.

(** [CoordinatorAgent._handle_with_subagent] *)
Definition _handle_with_subagent (agent_type task : string) : M (Dict PyVal) :=
  template <- template_subscript agent_type ;;
  let context :=
    mkSubagentContext
      (tpl_role template)
      task
      (tpl_instructions template)
      (_fetch_relevant_data (tpl_data_sources template))
      (tpl_max_tokens template) in
  subagent <- Subagent__init__ context ;;
  try_except_finally
    (result <- execute subagent 30 ;;
     subagent_tokens <- int_operand (dict_get result "tokens_used" (PyInt 2000)) ;;
     add_tokens subagent_tokens ;;
     result_text <- result_subscript result "result" ;;
     self <- get_self ;;
     ret [ ("handler", PyStr (agent_type ++ "_subagent"));
           ("role", PyStr (tpl_role template));
           ("result", result_text);
           ("tokens_used", PyInt (context_size self / 4 + subagent_tokens));
           ("subagent_terminated", PyBool true) ])
    subagent_handlers
    (terminate subagent).

(** [CoordinatorAgent._handle_unknown_task] *)
Definition _handle_unknown_task (message : string) : M (Dict PyVal) :=
  add_tokens 200 ;;
  self <- get_self ;;
  ret [ ("handler", PyStr "main_agent");
        ("response", PyStr ("I'm not sure how to handle: " ++ message));
        ("suggestion",
         PyStr "Try asking about finance, development, or content tasks");
        ("tokens_used", PyInt (context_size self / 4 + 200)) ].

(** [CoordinatorAgent.process_request] *)
Definition process_request (user_message : string) : M (Dict PyVal) :=
  let task_type := _classify_task user_message in
  self <- get_self ;;
  add_tokens (context_size self / 4) ;;
  if String.eqb task_type "simple" then
    _handle_simple_task user_message
  else if bool_decide (is_Some (SUBAGENT_TEMPLATES !! task_type)) then
    _handle_with_subagent task_type user_message
  else
    _handle_unknown_task user_message.

(** [CoordinatorAgent.get_stats]: the int is converted to a float and
    multiplied by the float that [0.000005] denotes.  (Python refuses to
    convert an int beyond the range of doubles, about [1.8e308]; counts of
    that size are outside the model.) *)
Record Stats : Type := mkStats {
  stats_total_tokens_used : Z;
  stats_estimated_cost : Q
}.

Definition get_stats : M Stats :=
  self <- get_self ;;
  ret (mkStats (total_tokens_used self)
               (float_mul (float_of_int (total_tokens_used self))
                  (float_literal (5 # 1000000)))).

(** A session: the requests of a list, in order, on the same coordinator.
    A request that raises ends the session. *)
Fixpoint process_all (messages : list string) : M (list (Dict PyVal)) :=
  match messages with
  | [] => ret []
  | message :: rest =>
      response <- process_request message ;;
      responses <- process_all rest ;;
      ret (response :: responses)
  end.

(** *** The comparison report and the entry point *)

(** [sep.join(parts)] *)
Fixpoint str_join (sep : string) (parts : list string) : string :=
  match parts with
  | [] => ""
  | part :: rest =>
      match rest with
      | [] => part
      | _ :: _ => part ++ sep ++ str_join sep rest
      end
  end.

(** The list [test_tasks] of [compare_token_usage]. *)
Definition test_tasks : list string :=
  [ "Hi, what can you help with?";
    "Calculate Q1 revenue";
    "Review the last commit";
    "Draft a tweet about AI agents";
    "What's our profit margin?" ].

(** The first loop of [compare_token_usage]: the running total and, for each
    task, the pair a line is printed from ([task[:50]] and [tokens]). *)
Definition single_agent_loop (single_agent_context : Z) (tasks : list string)
    : Z * list (string * Z) :=
  fold_left
    (fun acc task =>
       let tokens := single_agent_context / 4 + 500 in
       (fst acc + tokens, (snd acc ++ [(substring 0 50 task, tokens)])%list))
    tasks (0, []).

(** The second loop: each task is sent to the coordinator and a line is
    printed from [task[:50]], [result_data.get("tokens_used", 0)] and
    [result_data.get("handler", "unknown")], where [result_data] is the dict
    that [json.loads] gives back from the returned text. *)
Fixpoint coordinator_loop (tasks : list string)
    : M (list (string * PyVal * PyVal)) :=
  match tasks with
  | [] => ret []
  | task :: rest =>
      result_data <- process_request task ;;
      let tokens := dict_get result_data "tokens_used" (PyInt 0) in
      let handler := dict_get result_data "handler" (PyStr "unknown") in
      rows <- coordinator_loop rest ;;
      ret ((substring 0 50 task, tokens, handler) :: rows)
  end.

(** What [compare_token_usage] computes with integers.  The figures it
    derives in floating point (costs, the percentage) and the layout of the
    printed lines are left out. *)
Record Comparison : Type := mkComparison {
  cmp_single_agent_rows : list (string * Z);
  cmp_single_agent_tokens : Z;
  cmp_coordinator_rows : list (string * PyVal * PyVal);
  cmp_total_tokens_used : Z;
  cmp_savings_tokens : Z
}.

(** [compare_token_usage], on a list of tasks. *)
Definition compare_token_usage_on (tasks : list string) : M Comparison :=
  let single_agent_context := 10000 in
  let single := single_agent_loop single_agent_context tasks in
  let single_agent_tokens := fst single in
  CoordinatorAgent__init__ ;;
  rows <- coordinator_loop tasks ;;
  stats <- get_stats ;;
  let savings_tokens := single_agent_tokens - stats_total_tokens_used stats in
  ret (mkComparison (snd single) single_agent_tokens rows
         (stats_total_tokens_used stats) savings_tokens).

(** [compare_token_usage] *)
Definition compare_token_usage : M Comparison :=
  compare_token_usage_on test_tasks.

(** The entry point, given [sys.argv]: what it prints is either the
    response to the request made of the arguments, or the report. *)
Definition main (argv : list string) : M (Dict PyVal + Comparison) :=
  if (1 <? length argv)%nat then
    CoordinatorAgent__init__ ;;
    let user_input := str_join " " (tail argv) in
    result <- process_request user_input ;;
    ret (inl result)
  else
    report <- compare_token_usage ;;
    ret (inr report).

End Program.

(** ** Notions used in the statements *)

(** [word] occurs in [s]: some text before it, some text after it. *)
Definition occurs (word s : string) : Prop :=
  exists before after, s = before ++ word ++ after.

(** Some word of the list occurs in [s]. *)
Definition matches (words : list string) (s : string) : Prop :=
  exists word, In word words /\ occurs word s.

(** The keyword lists in the order in which [_classify_task] tests them. *)
Definition keyword_priority : list (string * list string) :=
  [ ("finance", finance_words);
    ("developer", developer_words);
    ("content", content_words);
    ("simple", simple_words) ].



(** The two exceptions [execute] raises by itself. *)
Definition already_terminated : Exn :=
  mkExn RuntimeError "Subagent already terminated".

Definition timeout_exceeded (timeout : Z) : Exn :=
  mkExn TimeoutError ("Subagent exceeded " ++ str_of_int timeout ++ "s timeout").

(** The exceptions raised by the operations on the result dict. *)
Definition type_error : Exn :=
  mkExn TypeError "unsupported operand type(s) for +=: 'int' and 'str'".

Definition key_error (key : string) : Exn :=
  mkExn KeyError ("'" ++ key ++ "'").

(** The int a value counts for in an addition, if any. *)
Definition int_of (v : PyVal) : option Z :=
  match v with
  | PyInt n => Some n
  | PyBool b => Some (Z.b2z b)
  | PyStr _ => None
  end.

(** The three dicts [_handle_with_subagent] builds. *)
Definition timeout_response : Dict PyVal :=
  [ ("error", PyStr "Subagent timeout");
    ("fallback",
     PyStr "Task took too long, please try again or break into smaller steps") ].

Definition fault_response (e : Exn) : Dict PyVal :=
  [ ("error", PyStr (exn_str e));
    ("fallback", PyStr "Something went wrong, please rephrase or try again") ].

Definition specialist_response (agent_type : string) (template : Template)
    (result_text : PyVal) (figure : Z) : Dict PyVal :=
  [ ("handler", PyStr (agent_type ++ "_subagent"));
    ("role", PyStr (tpl_role template));
    ("result", result_text);
    ("tokens_used", PyInt figure);
    ("subagent_terminated", PyBool true) ].

(** The context [_handle_with_subagent] builds from a profile. *)
Definition context_of (template : Template) (task : string) : SubagentContext :=
  mkSubagentContext
    (tpl_role template)
    task
    (tpl_instructions template)
    (_fetch_relevant_data (tpl_data_sources template))
    (tpl_max_tokens template).

(** [self.total_tokens_used += n] on the coordinator object. *)
Definition charged (self : CoordinatorAgent) (n : Z) : CoordinatorAgent :=
  mkCoordinatorAgent (context_size self) (total_tokens_used self + n).

(** The execution step as the class defines it: it always returns. *)
Definition class_run_task (context : SubagentContext) : Outcome (Dict PyVal) :=
  Return (_simulate_execution context).

(** [n] calls of [terminate] in a row on the same handler. *)
Fixpoint terminate_n (self : nat) (n : nat) : M unit :=
  match n with
  | O => ret tt
  | S n' => terminate self ;; terminate_n self n'
  end.

(** How many [terminate] calls on reference [r] a trace records. *)
Definition count_terminate (r : nat) (evs : list Event) : nat :=
  length (List.filter (fun ev => match ev with
                            | EvTerminate r' => Nat.eqb r r'
                            | _ => false
                            end) evs).

(** The charge of one call according to its branch: the base of 512, plus
    100 on the inline branch, 200 on the unknown branch, the tokens the
    handler reports (half the budget of its profile) when a specialist
    succeeds, nothing when the response is an error. *)
Definition call_charge (task_type : string) (response : Dict PyVal) : Z :=
  512 +
  (if String.eqb task_type "simple" then 100
   else match SUBAGENT_TEMPLATES !! task_type with
        | None => 200
        | Some template =>
            if dict_mem "error" response then 0
            else tpl_max_tokens template / 2
        end).

Fixpoint session_charge (task_types : list string) (responses : list (Dict PyVal)) : Z :=
  match task_types, responses with
  | task_type :: task_types', response :: responses' =>
      call_charge task_type response + session_charge task_types' responses'
  | _, _ => 0
  end.

(** The cumulative counter after a session on a new coordinator. *)
Definition tokens_after (lower : string -> string) (messages : list string) (w : World) : Z :=
  total_tokens_used
    (coordinator
       (snd ((CoordinatorAgent__init__ ;; process_all lower class_run_task messages) w))).

(** A response is one of the two shapes the program builds: a result with a
    handler label and a token figure, or an error with a fallback. *)
Definition is_result_response (response : Dict PyVal) : Prop :=
  dict_mem "error" response = false /\
  exists label figure,
    dict_lookup "handler" response = Some (PyStr label) /\
    dict_lookup "tokens_used" response = Some (PyInt figure).

Definition is_error_response (response : Dict PyVal) : Prop :=
  (exists message guidance,
     response = [("error", PyStr message); ("fallback", PyStr guidance)]) /\
  dict_mem "handler" response = false /\
  dict_mem "tokens_used" response = false.

(** The position of a category in the order of the tests of
    [_classify_task]; "unknown" and any other text come last. *)
Definition category_rank (category : string) : nat :=
  if String.eqb category "finance" then 0
  else if String.eqb category "developer" then 1
  else if String.eqb category "content" then 2
  else if String.eqb category "simple" then 3
  else 4.

(** The keys of a dict, in order. *)
Definition dict_keys {V} (d : Dict V) : list string := map fst d.

(** Every handler of a heap has been terminated. *)
Definition all_terminated (handlers : list Subagent) : Prop :=
  Forall (fun this => is_terminated this = true) handlers.

(** The sum of the token figures printed by the second loop of the report,
    and the number of its lines that show the handler "unknown". *)
Fixpoint rows_tokens (rows : list (string * PyVal * PyVal)) : Z :=
  match rows with
  | [] => 0
  | (_, tokens, _) :: rest =>
      match int_of tokens with
      | Some n => n
      | None => 0
      end + rows_tokens rest
  end.

Fixpoint rows_without_handler (rows : list (string * PyVal * PyVal)) : Z :=
  match rows with
  | [] => 0
  | (_, _, handler) :: rest =>
      match handler with
      | PyStr "unknown" => 1
      | _ => 0
      end + rows_without_handler rest
  end.

(** The clock never shows more than 30 seconds between the two readings of
    each of the next [n] dispatches. *)
Definition in_time (clk : nat -> Q) (first : nat) (n : nat) : Prop :=
  forall k : nat,
    (k < n)%nat ->
    (clk (S (first + 2 * k)) - clk (first + 2 * k)%nat <= inject_Z 30)%Q.

(** One step of the dict comprehension of [_fetch_relevant_data]. *)
Definition fetch_step (d : Dict string) (source : string) : Dict string :=
  dict_set source ("[Sample data from " ++ source ++ "]") d.

(** Worlds for the concrete runs. *)
Definition steady_clock : nat -> Q := fun _ => 0%Q.

(** A clock that advances 31 seconds between two readings. *)
Definition slow_clock : nat -> Q := fun n => inject_Z (31 * Z.of_nat n).

(** A clock that advances exactly 30 seconds between two readings. *)
Definition even_clock : nat -> Q := fun n => inject_Z (30 * Z.of_nat n).

(** A clock whose first reading is [3 * 2^-50] and whose later readings are
    [30 + 2^-48]: the exact difference is above 30 by [2^-50], a quarter of
    the step between doubles near 30. *)
Definition edge_clock : nat -> Q :=
  fun n =>
    match n with
    | O => (3 # 1125899906842624)%Q
    | S _ => (30 + (1 # 281474976710656))%Q
    end.

(** Execution steps other than the class's own, for the concrete runs: one
    whose result has no text, one whose result has no token count, one that
    fails. *)
Definition step_without_result (context : SubagentContext)
    : Outcome (Dict PyVal) :=
  Return [("tokens_used", PyInt 700)].

Definition step_without_tokens (context : SubagentContext)
    : Outcome (Dict PyVal) :=
  Return [("result", PyStr "done")].

Definition failing_step (context : SubagentContext) : Outcome (Dict PyVal) :=
  Raise (mkExn OtherException "connection lost").

Definition empty_world (clk : nat -> Q) : World :=
  mkWorld (mkCoordinatorAgent 2048 0) clk 0 [] [].

Definition sample_context : SubagentContext :=
  mkSubagentContext "Finance Specialist" "Calculate Q1 revenue" ""
    [] 5000.

(** ** Strings *)

Lemma prefix_append (word s : string) :
  String.prefix word s = true <-> exists after, s = word ++ after.
Proof.
  revert s. induction word as [|c word IH]; intros s; simpl.
  - split; [intros _; exists s; reflexivity | intros _; now destruct s].
  - destruct s as [|c' s]; simpl.
    + split; [discriminate | intros [after H]; discriminate].
    + destruct (ascii_dec c c') as [->|Hne].
      * rewrite IH. split; intros [after H]; exists after.
        -- now rewrite H.
        -- now inversion H.
      * split; [discriminate | intros [after H]; inversion H; congruence].
Qed.

Lemma contains_empty (word : string) :
  contains word "" = String.prefix word "".
Proof. unfold contains. apply orb_false_r. Qed.

Lemma contains_String (word : string) (c : ascii) (s : string) :
  contains word (String c s) = String.prefix word (String c s) || contains word s.
Proof. reflexivity. Qed.

Lemma contains_occurs (word s : string) :
  contains word s = true <-> occurs word s.
Proof.
  induction s as [|c s IH].
  - rewrite contains_empty, prefix_append. split.
    + intros [after H]. exists "", after. exact H.
    + intros [before [after H]]. destruct before; inversion H.
      now exists after.
  - rewrite contains_String, orb_true_iff, prefix_append, IH. split.
    + intros [[after H] | [before [after H]]].
      * exists "", after. exact H.
      * exists (String c before), after. now rewrite H.
    + intros [before [after H]]. destruct before as [|c' before].
      * left. now exists after.
      * right. inversion H. now exists before, after.
Qed.

Lemma any_word_in_matches (words : list string) (s : string) :
  any_word_in words s = true <-> matches words s.
Proof.
  unfold any_word_in, matches. rewrite existsb_exists.
  split; intros [word [Hin H]]; exists word; split; auto;
    now apply contains_occurs.
Qed.

Lemma any_word_in_no_match (words : list string) (s : string) :
  any_word_in words s = false <-> ~ matches words s.
Proof.
  rewrite <- any_word_in_matches. now destruct (any_word_in words s).
Qed.




(** ** The classifier *)

Section Classifier.

Variable lower : string -> string.

(** The result of [_classify_task] read off the four tests. *)
Lemma classify_cases (message : string) :
  let s := lower message in
  let c := _classify_task lower message in
  (matches finance_words s /\ c = "finance") \/
  (~ matches finance_words s /\ matches developer_words s /\
   c = "developer") \/
  (~ matches finance_words s /\ ~ matches developer_words s /\
   matches content_words s /\ c = "content") \/
  (~ matches finance_words s /\ ~ matches developer_words s /\
   ~ matches content_words s /\ matches simple_words s /\ c = "simple") \/
  (~ matches finance_words s /\ ~ matches developer_words s /\
   ~ matches content_words s /\ ~ matches simple_words s /\ c = "unknown").
Proof.
  cbv zeta. unfold _classify_task.
  destruct (any_word_in finance_words (lower message)) eqn:Hf.
  { left. split; [now apply any_word_in_matches | reflexivity]. }
  apply any_word_in_no_match in Hf. right.
  destruct (any_word_in developer_words (lower message)) eqn:Hd.
  { left. repeat split; [assumption | now apply any_word_in_matches]. }
  apply any_word_in_no_match in Hd. right.
  destruct (any_word_in content_words (lower message)) eqn:Hc.
  { left. repeat split; [assumption .. | now apply any_word_in_matches]. }
  apply any_word_in_no_match in Hc. right.
  destruct (any_word_in simple_words (lower message)) eqn:Hs.
  { left. repeat split; [assumption .. | now apply any_word_in_matches]. }
  apply any_word_in_no_match in Hs. right.
  repeat split; assumption.
Qed.

Lemma classify_first_match (message category : string)
    (earlier later : list (string * list string)) (words : list string) :
  keyword_priority = (earlier ++ (category, words) :: later)%list ->
  matches words (lower message) ->
  (forall c ws, In (c, ws) earlier -> ~ matches ws (lower message)) ->
  _classify_task lower message = category.
Proof.
  intros Hsplit Hhit Hmiss.
  assert (Hno : forall c ws, In (c, ws) earlier ->
                  any_word_in ws (lower message) = false).
  { intros c ws Hin. apply any_word_in_no_match. eauto. }
  apply any_word_in_matches in Hhit.
  unfold keyword_priority in Hsplit. unfold _classify_task.
  destruct earlier as [|p1 [|p2 [|p3 [|p4 [|p5 rest]]]]];
    simpl in Hsplit; inversion Hsplit; subst; clear Hsplit.
  - now rewrite Hhit.
  - rewrite (Hno "finance" finance_words) by (simpl; auto).
    now rewrite Hhit.
  - rewrite (Hno "finance" finance_words) by (simpl; auto).
    rewrite (Hno "developer" developer_words) by (simpl; auto).
    now rewrite Hhit.
  - rewrite (Hno "finance" finance_words) by (simpl; auto).
    rewrite (Hno "developer" developer_words) by (simpl; auto).
    rewrite (Hno "content" content_words) by (simpl; auto).
    now rewrite Hhit.
Qed.

End Classifier.


(** C10.  Matching is substring containment on the lowered text: when a
    keyword of a category occurs anywhere in it, whatever characters come
    before and after, and no keyword of an earlier category occurs, the text
    is given that category. *)
Theorem classify_substring (lower : string -> string)
    (message category word before after : string)
    (earlier later : list (string * list string)) (words : list string) :
  keyword_priority = (earlier ++ (category, words) :: later)%list ->
  In word words ->
  lower message = before ++ word ++ after ->
  (forall c ws, In (c, ws) earlier -> ~ matches ws (lower message)) ->
  _classify_task lower message = category /\ category <> "unknown".
Proof.
  intros Hsplit Hin Hocc Hmiss. split.
  - apply (classify_first_match lower message category earlier later words);
      [assumption | | assumption].
    exists word. split; [assumption | now exists before, after].
  - intros ->.
    assert (Hk : In ("unknown", words) keyword_priority).
    { rewrite Hsplit. apply in_or_app. right. now left. }
    unfold keyword_priority in Hk. simpl in Hk.
    repeat (destruct Hk as [Hk | Hk]; [discriminate|]). exact Hk.
Qed.

Lemma classify_substring_witness :
  _classify_task ascii_lower "What is the Price?" = "developer" /\
  "developer" <> "unknown".
Proof.
  apply (classify_substring ascii_lower "What is the Price?" "developer" "pr"
           "what is the " "ice?"
           [("finance", finance_words)]
           [("content", content_words); ("simple", simple_words)]
           developer_words).
  - reflexivity.
  - simpl. auto.
  - reflexivity.
  - intros c ws [Heq | []]. inversion Heq; subst.
    apply any_word_in_no_match. reflexivity.
Defined.

Example classify_this :
  _classify_task ascii_lower "this" = "simple".
Proof. reflexivity. Qed.

Example classify_two_categories :
  _classify_task ascii_lower "Write code for the revenue report" = "finance".
Proof. reflexivity. Qed.

(** ** The handler *)

Lemma round_half_even_nonneg (n d : Z) :
  0 <= n -> 0 < d -> 0 <= round_half_even n d.
Proof.
  intros Hn Hd. unfold round_half_even.
  assert (0 <= n / d) by (apply Z.div_pos; lia).
  repeat (destruct (_ <? _) || destruct (Z.even _)); lia.
Qed.

Lemma round_half_even_le (n d bound : Z) :
  0 < d -> n <= bound * d -> round_half_even n d <= bound.
Proof.
  intros Hd Hle. unfold round_half_even.
  pose proof (Z.div_mod n d ltac:(lia)) as Hdm.
  pose proof (Z.mod_pos_bound n d Hd) as Hr.
  assert (Hq : n / d <= bound) by nia.
  destruct (2 * (n mod d) <? d) eqn:E1; [exact Hq|].
  apply Z.ltb_ge in E1.
  assert (n / d + 1 <= bound) by nia.
  destruct (d <? 2 * (n mod d)); [assumption|].
  destruct (Z.even (n / d)); assumption.
Qed.

Lemma floor_log2_ratio_le (n d bound : Z) :
  0 < n -> 0 < d -> 0 <= bound -> n <= 2 ^ bound * d ->
  floor_log2_ratio n d <= bound.
Proof.
  intros Hn Hd Hb Hle. unfold floor_log2_ratio.
  assert (Z.log2 n - Z.log2 d <= bound).
  { assert (Z.log2 n <= Z.log2 (2 ^ bound * d)) by (apply Z.log2_le_mono; lia).
    rewrite Z.mul_comm, Z.log2_mul_pow2 in H by lia. lia. }
  destruct (_ <=? _); lia.
Qed.

Lemma round_double_le (x : Q) (t : Z) :
  0 <= t <= 2 ^ 52 -> (x <= inject_Z t)%Q -> (round_double x <= inject_Z t)%Q.
Proof.
  intros Ht Hle. unfold Qle in Hle. cbn [Qnum Qden inject_Z] in Hle.
  unfold round_double.
  destruct (Z.eqb_spec (Qnum x) 0) as [Hz|Hnz].
  { unfold Qle. cbn. lia. }
  set (d := Zpos (Qden x)) in *. assert (Hd : 0 < d) by (subst d; lia).
  set (a := Z.abs (Qnum x)).
  set (e := Z.max (floor_log2_ratio a d - 52) (- 1074)).
  set (m := round_half_even (a * 2 ^ Z.max 0 (- e)) (d * 2 ^ Z.max 0 e)).
  assert (Hm : 0 <= m).
  { apply round_half_even_nonneg.
    - apply Z.mul_nonneg_nonneg; [subst a; lia | apply Z.pow_nonneg; lia].
    - apply Z.mul_pos_pos; [lia | apply Z.pow_pos_nonneg; lia]. }
  destruct (Z.lt_ge_cases (Qnum x) 0) as [Hneg|Hpos].
  - (* a negative number rounds to a number that is not positive *)
    rewrite (Z.sgn_neg _ Hneg).
    destruct (0 <=? e) eqn:Ee; unfold Qle; cbn [Qnum Qden inject_Z].
    + assert (0 <= 2 ^ e) by (apply Z.pow_nonneg; lia). nia.
    + nia.
  - assert (Hp : 0 < Qnum x) by lia.
    rewrite (Z.sgn_pos _ Hp).
    assert (Ha : a = Qnum x) by (subst a; lia).
    assert (He : e <= 0).
    { subst e. assert (floor_log2_ratio a d <= 52); [|lia].
      apply floor_log2_ratio_le; try lia. nia. }
    assert (Hmax : Z.max 0 e = 0) by lia.
    assert (Hmin : Z.max 0 (- e) = - e) by lia.
    assert (Hpow : 0 < 2 ^ (- e)) by (apply Z.pow_pos_nonneg; lia).
    assert (Hbound : m <= t * 2 ^ (- e)).
    { subst m. rewrite Hmax, Hmin, Z.pow_0_r, Z.mul_1_r.
      apply round_half_even_le; [assumption|]. rewrite Ha. nia. }
    destruct (0 <=? e) eqn:Ee; unfold Qle; cbn [Qnum Qden inject_Z].
    + apply Z.leb_le in Ee. assert (e = 0) by lia. subst e.
      replace (Z.max _ _) with 0 in * by lia.
      rewrite Z.pow_0_r in *. lia.
    + rewrite Z2Pos.id by assumption. lia.
Qed.

(** A difference of at most 30 seconds is not measured as more. *)
Lemma float_sub_in_time (a b : Q) :
  (a - b <= inject_Z 30)%Q -> Qgt_bool (float_sub a b) (inject_Z 30) = false.
Proof.
  intros H. unfold Qgt_bool. rewrite negb_false_iff. apply Qle_bool_iff.
  unfold float_sub. apply round_double_le; [|exact H].
  split; [lia | now vm_compute].
Qed.

Lemma Qgt_bool_true (a b : Q) : Qgt_bool a b = true <-> (b < a)%Q.
Proof.
  unfold Qgt_bool. rewrite negb_true_iff. split.
  - intros H. apply Qnot_le_lt. intros Hle.
    apply Qle_bool_iff in Hle. congruence.
  - intros H. destruct (Qle_bool a b) eqn:E; [|reflexivity].
    apply Qle_bool_iff in E. exfalso. now apply (Qlt_not_le _ _ H).
Qed.

Lemma Qgt_bool_false (a b : Q) : Qgt_bool a b = false <-> (a <= b)%Q.
Proof.
  unfold Qgt_bool. rewrite negb_false_iff. apply Qle_bool_iff.
Qed.

Section Handler.

Variable run_task : SubagentContext -> Outcome (Dict PyVal).

Lemma terminate_eq (w : World) (r : nat) (this : Subagent) :
  heap w !! r = Some this ->
  terminate r w =
    (Return tt,
     mkWorld (coordinator w) (clock w) (ticks w)
       (<[r := mkSubagent (context this) (start_time this) true]> (heap w))
       (EvTerminate r :: trace w)).
Proof.
  intros H. unfold terminate, bind, log, deref, store. simpl.
  now rewrite H.
Qed.

Lemma execute_eq (w : World) (r : nat) (this : Subagent) (timeout : Z) :
  heap w !! r = Some this ->
  execute run_task r timeout w =
    if is_terminated this then
      (Raise already_terminated,
       mkWorld (coordinator w) (clock w) (ticks w) (heap w)
         (EvExecute r :: trace w))
    else if Qgt_bool (float_sub (clock w (ticks w)) (start_time this))
                     (inject_Z timeout) then
      (Raise (timeout_exceeded timeout),
       mkWorld (coordinator w) (clock w) (S (ticks w)) (heap w)
         (EvExecute r :: trace w))
    else
      (run_task (context this),
       mkWorld (coordinator w) (clock w) (S (ticks w)) (heap w)
         (EvSimulate r :: EvExecute r :: trace w)).
Proof.
  intros H. unfold execute, bind, log, deref, time_time, raise.
  simpl. rewrite H.
  destruct (is_terminated this); [reflexivity|]. simpl.
  destruct (Qgt_bool _ _); [reflexivity|]. simpl.
  now destruct (run_task (context this)).
Qed.

Lemma execute_heap (w : World) (r : nat) (timeout : Z) :
  heap (snd (execute run_task r timeout w)) = heap w.
Proof.
  unfold execute, bind, log, deref, time_time, raise. simpl.
  destruct (heap w !! r) as [this|]; [|reflexivity].
  destruct (is_terminated this); [reflexivity|]. simpl.
  destruct (Qgt_bool _ _); [reflexivity|]. simpl.
  now destruct (run_task (context this)).
Qed.

Lemma execute_ticks (w : World) (r : nat) (this : Subagent) (timeout : Z) :
  heap w !! r = Some this ->
  is_terminated this = false ->
  ticks (snd (execute run_task r timeout w)) = S (ticks w) /\
  clock (snd (execute run_task r timeout w)) = clock w.
Proof.
  intros H Hlive. rewrite (execute_eq w r this timeout H), Hlive.
  now destruct (Qgt_bool _ _).
Qed.

Lemma terminate_n_eq (r : nat) (n : nat) :
  forall (w : World) (this : Subagent),
    heap w !! r = Some this ->
    exists evs,
      terminate_n r (S n) w =
        (Return tt,
         mkWorld (coordinator w) (clock w) (ticks w)
           (<[r := mkSubagent (context this) (start_time this) true]> (heap w))
           (evs ++ trace w)%list) /\
      count_terminate r evs = S n.
Proof.
  induction n as [|n IH]; intros w this H.
  - exists [EvTerminate r]. split.
    + change (terminate_n r 1) with (terminate r ;; ret tt).
      unfold bind at 1. rewrite (terminate_eq w r this H). reflexivity.
    + unfold count_terminate. simpl. now rewrite Nat.eqb_refl.
  - change (terminate_n r (S (S n)))
      with (terminate r ;; terminate_n r (S n)).
    unfold bind at 1. rewrite (terminate_eq w r this H).
    set (this' := mkSubagent (context this) (start_time this) true).
    set (w1 := mkWorld _ _ _ _ _).
    assert (H1 : heap w1 !! r = Some this').
    { subst w1. simpl. apply list_lookup_insert_eq.
      now apply lookup_lt_Some in H. }
    destruct (IH w1 this' H1) as [evs [Heq Hcount]].
    exists (evs ++ [EvTerminate r])%list. split.
    + rewrite Heq. subst w1 this'. simpl.
      rewrite list_insert_insert_eq, <- app_assoc. reflexivity.
    + unfold count_terminate in *.
      rewrite List.filter_app, length_app, Hcount. simpl.
      rewrite Nat.eqb_refl. simpl. lia.
Qed.

End Handler.

(** C8.  On every handler, terminated already or not, any number [n >= 1]
    of [terminate] calls in a row all return normally and leave the heap,
    hence the termination flag, exactly as the first call left it: the flag
    is set and nothing else of the handler changes. *)
Theorem terminate_idempotent (w : World) (r : nat) (this : Subagent) (n : nat) :
  heap w !! r = Some this ->
  (1 <= n)%nat ->
  fst (terminate r w) = Return tt /\
  fst (terminate_n r n w) = Return tt /\
  heap (snd (terminate_n r n w)) = heap (snd (terminate r w)) /\
  heap (snd (terminate r w)) !! r =
    Some (mkSubagent (context this) (start_time this) true) /\
  coordinator (snd (terminate_n r n w)) = coordinator w.
Proof.
  intros H Hn. destruct n as [|n]; [lia|].
  destruct (terminate_n_eq r n w this H) as [evs [Heq _]].
  rewrite Heq, (terminate_eq w r this H). simpl.
  repeat split; try reflexivity.
  apply list_lookup_insert_eq. now apply lookup_lt_Some in H.
Qed.

Lemma terminate_idempotent_witness :
  let w := snd (Subagent__init__ sample_context (empty_world steady_clock)) in
  fst (terminate 0 w) = Return tt /\
  fst (terminate_n 0 3 w) = Return tt /\
  heap (snd (terminate_n 0 3 w)) = heap (snd (terminate 0 w)) /\
  heap (snd (terminate 0 w)) !! 0%nat =
    Some (mkSubagent sample_context 0%Q true) /\
  coordinator (snd (terminate_n 0 3 w)) = coordinator w.
Proof.
  apply (terminate_idempotent
           (snd (Subagent__init__ sample_context (empty_world steady_clock)))
           0 (mkSubagent sample_context 0%Q false) 3).
  - reflexivity.
  - lia.
Defined.

(** C1, as the code has it.  [execute] fails with "already terminated"
    exactly on a handler whose flag [terminate] has set: after an earlier
    [execute] and a [terminate], the next [execute] fails that way.
    [execute] itself never sets the flag, so a second [execute] with no
    [terminate] in between passes the first test again and is decided by the
    timeout test alone. *)
Theorem execute_after_terminate
    (run_task : SubagentContext -> Outcome (Dict PyVal))
    (w : World) (r : nat) (this : Subagent) (t1 t2 : Z) :
  heap w !! r = Some this ->
  let w1 := snd (execute run_task r t1 w) in
  fst (execute run_task r t2 (snd (terminate r w1))) = Raise already_terminated /\
  (is_terminated this = true ->
   fst (execute run_task r t2 w) = Raise already_terminated) /\
  (is_terminated this = false ->
   fst (execute run_task r t2 w1) =
     if Qgt_bool (float_sub (clock w (S (ticks w))) (start_time this))
          (inject_Z t2)
     then Raise (timeout_exceeded t2)
     else run_task (context this)).
Proof.
  intros H w1.
  assert (H1 : heap w1 !! r = Some this).
  { subst w1. now rewrite execute_heap. }
  split; [|split].
  - rewrite (terminate_eq w1 r this H1).
    erewrite execute_eq.
    2:{ simpl. apply list_lookup_insert_eq. now apply lookup_lt_Some in H1. }
    reflexivity.
  - intros Hdone. now rewrite (execute_eq run_task w r this t2 H), Hdone.
  - intros Hlive.
    destruct (execute_ticks run_task w r this t1 H Hlive) as [Hticks Hclock].
    fold w1 in Hticks, Hclock.
    rewrite (execute_eq run_task w1 r this t2 H1), Hlive, Hticks, Hclock.
    now destruct (Qgt_bool _ _).
Qed.

Lemma execute_after_terminate_witness :
  let w := snd (Subagent__init__ sample_context (empty_world steady_clock)) in
  let w1 := snd (execute class_run_task 0 30 w) in
  fst (execute class_run_task 0 30 (snd (terminate 0 w1))) =
    Raise already_terminated /\
  (false = true ->
   fst (execute class_run_task 0 30 w) = Raise already_terminated) /\
  (false = false ->
   fst (execute class_run_task 0 30 w1) =
     if Qgt_bool (float_sub 0 0) (inject_Z 30)
     then Raise (timeout_exceeded 30)
     else class_run_task sample_context).
Proof.
  apply (execute_after_terminate class_run_task
           (snd (Subagent__init__ sample_context (empty_world steady_clock)))
           0 (mkSubagent sample_context 0%Q false) 30 30).
  reflexivity.
Defined.

(** C1, as stated, fails: a handler is created and executed twice with no
    [terminate] in between, within the timeout; the second call returns the
    result again instead of failing. *)
Lemma second_execute_returns :
  let twice :=
    (r <- Subagent__init__ sample_context ;;
     execute class_run_task r 30 ;;
     execute class_run_task r 30) in
  fst (twice (empty_world steady_clock)) =
    Return (_simulate_execution sample_context) /\
  fst (twice (empty_world steady_clock)) <> Raise already_terminated.
Proof.
  split; [reflexivity | discriminate].
Qed.

(** ** The coordinator *)

Lemma alloc_lookup (l : list Subagent) (o : Subagent) :
  (l ++ [o])%list !! length l = Some o.
Proof. rewrite lookup_app_r by lia. now rewrite Nat.sub_diag. Qed.

Lemma alloc_insert (l : list Subagent) (o o' : Subagent) :
  <[length l := o']> (l ++ [o])%list = (l ++ [o'])%list.
Proof. rewrite insert_app_r_alt by lia. now rewrite Nat.sub_diag. Qed.

Lemma template_in_table (agent_type : string) (template : Template) :
  SUBAGENT_TEMPLATES !! agent_type = Some template ->
  template = finance_template \/ template = developer_template \/
  template = content_template.
Proof.
  unfold SUBAGENT_TEMPLATES. rewrite !lookup_insert_Some, lookup_empty.
  intros [[_ <-] | [_ [[_ <-] | [_ [[_ <-] | [_ Hnone]]]]]]; auto.
  discriminate.
Qed.

Section Coordinator.

Variable lower : string -> string.
Variable run_task : SubagentContext -> Outcome (Dict PyVal).

(** The whole of [_handle_with_subagent] in one equation: the outcome and
    the world it leaves, path by path. *)
Lemma handle_with_subagent_eq
    (agent_type task : string) (template : Template) (w : World) :
  SUBAGENT_TEMPLATES !! agent_type = Some template ->
  let ctx := context_of template task in
  let r := length (heap w) in
  let born := clock w (ticks w) in
  let self := coordinator w in
  let after c evs :=
    mkWorld c (clock w) (S (S (ticks w)))
      (heap w ++ [mkSubagent ctx born true])%list
      (EvTerminate r :: evs ++ EvExecute r :: trace w)%list in
  _handle_with_subagent run_task agent_type task w =
    if Qgt_bool (float_sub (clock w (S (ticks w))) born) (inject_Z 30) then
      (Return timeout_response, after self [])
    else
      match run_task ctx with
      | Raise e =>
          (if isinstance_TimeoutError e then Return timeout_response
           else if isinstance_Exception e then Return (fault_response e)
           else Raise e,
           after self [EvSimulate r])
      | Return result =>
          match int_of (dict_get result "tokens_used" (PyInt 2000)) with
          | None =>
              (Return (fault_response type_error), after self [EvSimulate r])
          | Some n =>
              match dict_lookup "result" result with
              | None =>
                  (Return (fault_response (key_error "result")),
                   after (charged self n) [EvSimulate r])
              | Some text =>
                  (Return
                     (specialist_response agent_type template text
                        (context_size self / 4 + n)),
                   after (charged self n) [EvSimulate r])
              end
          end
      end.
Proof.
  intros H ctx r born self after.
  unfold _handle_with_subagent, template_subscript. rewrite H.
  unfold bind at 1. unfold ret at 1. unfold bind at 1.
  change (Subagent__init__ ?c w)
    with (Return (length (heap w)),
          mkWorld (coordinator w) (clock w) (S (ticks w))
            (heap w ++ [mkSubagent c (clock w (ticks w)) false])%list
            (trace w)).
  cbv iota beta. fold (context_of template task). fold ctx r born.
  set (w1 := mkWorld _ _ _ _ _).
  assert (Hfin : forall (o : Outcome (Dict PyVal)) c evs,
    (let (o0, w2) :=
       terminate r (mkWorld c (clock w) (S (S (ticks w))) (heap w1)
                      (evs ++ EvExecute r :: trace w)%list) in
     match o0 with
     | Return _ => (o, w2)
     | Raise e => (Raise e, w2)
     end) = (o, after c evs)).
  { intros o c evs. subst after w1 r. cbn [heap].
    erewrite terminate_eq by (cbn [heap]; apply alloc_lookup).
    cbn [coordinator clock ticks heap trace context start_time].
    now rewrite alloc_insert. }
  unfold try_except_finally. unfold bind at 1.
  rewrite (execute_eq run_task w1 r (mkSubagent ctx born false) 30)
    by apply alloc_lookup.
  cbn [is_terminated start_time context].
  change (clock w1 (ticks w1)) with (clock w (S (ticks w))).
  destruct (Qgt_bool _ _).
  { apply (Hfin (Return timeout_response) self []). }
  destruct (run_task ctx) as [result | e].
  2:{ unfold subagent_handlers.
      destruct (isinstance_TimeoutError e);
        [apply (Hfin _ self [EvSimulate r])|].
      destruct (isinstance_Exception e);
        apply (Hfin _ self [EvSimulate r]). }
  unfold bind at 1.
  destruct (dict_get result "tokens_used" (PyInt 2000)) as [s | n | b];
    cbn [int_operand int_of].
  - apply (Hfin _ self [EvSimulate r]).
  - unfold ret at 1, bind at 1, add_tokens, bind at 1, get_self, put_self.
    cbn [coordinator clock ticks heap trace]. unfold bind at 1.
    unfold result_subscript.
    destruct (dict_lookup "result" result) as [text|];
      apply (Hfin _ (charged self n) [EvSimulate r]).
  - unfold ret at 1, bind at 1, add_tokens, bind at 1, get_self, put_self.
    cbn [coordinator clock ticks heap trace]. unfold bind at 1.
    unfold result_subscript.
    destruct (dict_lookup "result" result) as [text|];
      apply (Hfin _ (charged self (Z.b2z b)) [EvSimulate r]).
Qed.

End Coordinator.

Section Requests.

Variable lower : string -> string.
Variable run_task : SubagentContext -> Outcome (Dict PyVal).

(** The world in which the branch of [process_request] starts: the base
    cost has been charged. *)
Lemma process_request_eq (message : string) (w : World) :
  process_request lower run_task message w =
    let task_type := _classify_task lower message in
    let self := coordinator w in
    let w0 :=
      mkWorld (charged self (context_size self / 4))
        (clock w) (ticks w) (heap w) (trace w) in
    if String.eqb task_type "simple" then _handle_simple_task message w0
    else match SUBAGENT_TEMPLATES !! task_type with
         | Some _ => _handle_with_subagent run_task task_type message w0
         | None => _handle_unknown_task message w0
         end.
Proof.
  unfold process_request, bind, get_self, add_tokens, bind, get_self,
    put_self, charged.
  cbn [coordinator clock ticks heap trace].
  destruct (String.eqb _ "simple"); [reflexivity|].
  destruct (SUBAGENT_TEMPLATES !! _) as [template|].
  - rewrite bool_decide_eq_true_2; [reflexivity | eauto].
  - rewrite bool_decide_eq_false_2; [reflexivity|].
    intros [x Hx]. discriminate.
Qed.

Lemma handle_simple_task_eq (message : string) (w : World) :
  _handle_simple_task message w =
    (Return [ ("handler", PyStr "main_agent");
              ("response", PyStr ("Quick answer to: " ++ message));
              ("tokens_used", PyInt (context_size (coordinator w) / 4 + 100)) ],
     mkWorld (charged (coordinator w) 100)
       (clock w) (ticks w) (heap w) (trace w)).
Proof. reflexivity. Qed.

Lemma handle_unknown_task_eq (message : string) (w : World) :
  _handle_unknown_task message w =
    (Return [ ("handler", PyStr "main_agent");
              ("response", PyStr ("I'm not sure how to handle: " ++ message));
              ("suggestion",
               PyStr "Try asking about finance, development, or content tasks");
              ("tokens_used", PyInt (context_size (coordinator w) / 4 + 200)) ],
     mkWorld (charged (coordinator w) 200)
       (clock w) (ticks w) (heap w) (trace w)).
Proof. reflexivity. Qed.

(** A category of the table is not the inline category. *)
Lemma specialist_not_simple (task_type : string) :
  is_Some (SUBAGENT_TEMPLATES !! task_type) ->
  String.eqb task_type "simple" = false.
Proof.
  intros [template H]. destruct (String.eqb_spec task_type "simple") as [->|];
    [|reflexivity].
  vm_compute in H. discriminate.
Qed.

(** [process_request] on a specialist category is the dispatch, after the
    base cost. *)
Lemma process_request_specialist
    (message : string) (template : Template) (w : World) :
  SUBAGENT_TEMPLATES !! _classify_task lower message = Some template ->
  process_request lower run_task message w =
    _handle_with_subagent run_task (_classify_task lower message) message
      (mkWorld (charged (coordinator w) (context_size (coordinator w) / 4))
         (clock w) (ticks w) (heap w) (trace w)).
Proof.
  intros H. rewrite process_request_eq. cbv zeta.
  rewrite specialist_not_simple by eauto. now rewrite H.
Qed.

End Requests.

(** C2.  For every request that is dispatched to a specialist, whatever the
    execution step does (return, raise a timeout, raise any other exception)
    and whatever the clock reads, the dispatch creates exactly one handler,
    the last call it makes is [terminate] on that handler, it makes no other
    [terminate] call on it, and the handler's flag is set when the dispatch
    finishes. *)
Theorem terminate_once_per_dispatch
    (lower : string -> string)
    (run_task : SubagentContext -> Outcome (Dict PyVal))
    (message : string) (w : World) :
  is_Some (SUBAGENT_TEMPLATES !! _classify_task lower message) ->
  let r := length (heap w) in
  let w' := snd (process_request lower run_task message w) in
  (exists this,
     heap w' = (heap w ++ [this])%list /\ is_terminated this = true) /\
  (exists evs,
     trace w' = (EvTerminate r :: evs ++ trace w)%list /\
     count_terminate r evs = 0%nat /\
     count_terminate r (EvTerminate r :: evs) = 1%nat).
Proof.
  intros [template H] r w'. subst w'.
  rewrite (process_request_specialist lower run_task message template w H).
  rewrite (handle_with_subagent_eq run_task _ message template _ H).
  cbn [coordinator clock ticks heap trace]. fold r.
  assert (Hone : forall evs, count_terminate r evs = 0%nat ->
                   count_terminate r (EvTerminate r :: evs) = 1%nat).
  { intros evs H0. unfold count_terminate in *. simpl.
    rewrite Nat.eqb_refl. simpl. now rewrite H0. }
  destruct (Qgt_bool _ _).
  { split; [eexists; split; reflexivity|].
    exists [EvExecute r]. repeat split. now apply Hone. }
  destruct (run_task _) as [result | e].
  2:{ split; [eexists; split; reflexivity|].
      exists [EvSimulate r; EvExecute r]. repeat split. now apply Hone. }
  destruct (int_of _) as [n|].
  2:{ split; [eexists; split; reflexivity|].
      exists [EvSimulate r; EvExecute r]. repeat split. now apply Hone. }
  destruct (dict_lookup "result" result);
    (split; [eexists; split; reflexivity|];
     exists [EvSimulate r; EvExecute r]; repeat split; now apply Hone).
Qed.

Lemma terminate_once_per_dispatch_witness :
  let w := empty_world slow_clock in
  let w' :=
    snd (process_request ascii_lower class_run_task "Calculate Q1 revenue" w) in
  (exists this,
     heap w' = (heap w ++ [this])%list /\ is_terminated this = true) /\
  (exists evs,
     trace w' = (EvTerminate 0 :: evs ++ trace w)%list /\
     count_terminate 0 evs = 0%nat /\
     count_terminate 0 (EvTerminate 0 :: evs) = 1%nat).
Proof.
  apply (terminate_once_per_dispatch ascii_lower class_run_task
           "Calculate Q1 revenue" (empty_world slow_clock)).
  exists finance_template. reflexivity.
Defined.

(** C3, as the code has it.  Every response [process_request] returns has
    one of two shapes: a result (inline, unknown or specialist) with a
    handler label and a token figure, or an error (timeout or fault) that is
    exactly an error message and a fallback message, with no handler label
    and no token figure.  The only exceptions it lets through are those
    outside [Exception]. *)
Theorem response_shapes
    (lower : string -> string)
    (run_task : SubagentContext -> Outcome (Dict PyVal))
    (message : string) (w : World) :
  match fst (process_request lower run_task message w) with
  | Return response => is_result_response response \/ is_error_response response
  | Raise e => exn_class e = NonException
  end.
Proof.
  assert (Herr : forall m g : string,
            is_error_response [("error", PyStr m); ("fallback", PyStr g)]).
  { intros m g. split; [now exists m, g | split; reflexivity]. }
  rewrite process_request_eq. cbv zeta.
  destruct (String.eqb _ "simple").
  { rewrite handle_simple_task_eq. left. split; [reflexivity|].
    eexists _, _. split; reflexivity. }
  destruct (SUBAGENT_TEMPLATES !! _) as [template|] eqn:H.
  2:{ rewrite handle_unknown_task_eq. left. split; [reflexivity|].
      eexists _, _. split; reflexivity. }
  rewrite (handle_with_subagent_eq run_task _ message template _ H).
  destruct (Qgt_bool _ _); [right; apply Herr|].
  destruct (run_task _) as [result | e].
  2:{ cbn [fst]. destruct (isinstance_TimeoutError e); [right; apply Herr|].
      destruct (isinstance_Exception e) eqn:He; [right; apply Herr|].
      unfold isinstance_Exception in He.
      now destruct (exn_class e). }
  destruct (int_of _) as [n|]; [|right; apply Herr].
  destruct (dict_lookup "result" result); [|right; apply Herr].
  left. split; [reflexivity|]. eexists _, _. split; reflexivity.
Qed.

(** C3, as stated, fails: when the clock advances 31 seconds between the
    creation of the handler and its execution, the response to a finance
    request is the timeout error, which has neither a handler label nor a
    token figure. *)
Lemma timeout_response_has_no_label :
  let response :=
    fst ((CoordinatorAgent__init__ ;;
          process_request ascii_lower class_run_task "Calculate Q1 revenue")
           (empty_world slow_clock)) in
  response = Return timeout_response /\
  dict_lookup "handler" timeout_response = None /\
  dict_lookup "tokens_used" timeout_response = None.
Proof.
  repeat split.
Qed.



(** C9.  Whenever [process_request] returns a response that is not an
    error, the token figure in the response is exactly the amount by which
    the cumulative counter grew during the call. *)
Theorem figure_is_counter_growth
    (lower : string -> string)
    (run_task : SubagentContext -> Outcome (Dict PyVal))
    (message : string) (w w' : World) (response : Dict PyVal) :
  process_request lower run_task message w = (Return response, w') ->
  dict_mem "error" response = false ->
  dict_lookup "tokens_used" response =
    Some (PyInt (total_tokens_used (coordinator w') -
                 total_tokens_used (coordinator w))).
Proof.
  rewrite process_request_eq. cbv zeta.
  destruct (String.eqb _ "simple").
  { rewrite handle_simple_task_eq. intros Heq _. inversion Heq; subst.
    cbn. do 2 f_equal. lia. }
  destruct (SUBAGENT_TEMPLATES !! _) as [template|] eqn:H.
  2:{ rewrite handle_unknown_task_eq. intros Heq _. inversion Heq; subst.
      cbn. do 2 f_equal. lia. }
  rewrite (handle_with_subagent_eq run_task _ message template _ H).
  cbn [coordinator clock ticks heap trace].
  destruct (Qgt_bool _ _).
  { intros Heq Hne. inversion Heq; subst. discriminate. }
  destruct (run_task _) as [result | e].
  2:{ destruct (isinstance_TimeoutError e).
      { intros Heq Hne. inversion Heq; subst. discriminate. }
      destruct (isinstance_Exception e); intros Heq Hne; inversion Heq; subst.
      discriminate. }
  destruct (int_of _) as [n|].
  2:{ intros Heq Hne. inversion Heq; subst. discriminate. }
  destruct (dict_lookup "result" result).
  2:{ intros Heq Hne. inversion Heq; subst. discriminate. }
  intros Heq _. inversion Heq; subst. cbn. do 2 f_equal. lia.
Qed.

Lemma figure_is_counter_growth_witness :
  dict_lookup "tokens_used"
    (specialist_response "developer" developer_template
       (PyStr "[Simulated result for: Review the last commit]") 4512) =
  Some (PyInt (4512 - 0)).
Proof.
  apply (figure_is_counter_growth ascii_lower class_run_task
           "Review the last commit" (empty_world steady_clock)
           (snd (process_request ascii_lower class_run_task
                   "Review the last commit" (empty_world steady_clock)))).
  - reflexivity.
  - reflexivity.
Defined.

(** ** Token accounting over a session *)

Section Accounting.

Variable lower : string -> string.

(** One call with the class's own execution step: it returns, and the
    counter grows by the charge of the branch taken. *)
Lemma process_request_charge (message : string) (w : World) :
  context_size (coordinator w) = 2048 ->
  exists response w',
    process_request lower class_run_task message w = (Return response, w') /\
    context_size (coordinator w') = 2048 /\
    total_tokens_used (coordinator w') =
      total_tokens_used (coordinator w) +
      call_charge (_classify_task lower message) response /\
    0 <= call_charge (_classify_task lower message) response.
Proof.
  intros Hsize. rewrite process_request_eq. cbv zeta. unfold call_charge.
  destruct (String.eqb _ "simple").
  { rewrite handle_simple_task_eq. eexists _, _. split; [reflexivity|].
    cbn. rewrite Hsize. change (2048 / 4) with 512.
    repeat split; lia. }
  destruct (SUBAGENT_TEMPLATES !! _) as [template|] eqn:H.
  2:{ rewrite handle_unknown_task_eq. eexists _, _. split; [reflexivity|].
      cbn. rewrite Hsize. change (2048 / 4) with 512.
      repeat split; lia. }
  rewrite (handle_with_subagent_eq class_run_task _ message template _ H).
  cbn [coordinator clock ticks heap trace].
  assert (Hbudget : 0 <= tpl_max_tokens template / 2).
  { destruct (template_in_table _ _ H) as [-> | [-> | ->]];
      vm_compute; discriminate. }
  destruct (Qgt_bool _ _).
  { eexists _, _. split; [reflexivity|].
    cbn. rewrite Hsize. change (2048 / 4) with 512.
    repeat split; lia. }
  unfold class_run_task, _simulate_execution.
  cbn [dict_get dict_lookup String.eqb Ascii.eqb Bool.eqb int_of].
  eexists _, _. split; [reflexivity|].
  cbn. rewrite Hsize. change (2048 / 4) with 512.
  repeat split; lia.
Qed.

Lemma process_all_cons
    (message : string) (rest : list string) (w w1 : World)
    (response : Dict PyVal) :
  process_request lower class_run_task message w = (Return response, w1) ->
  process_all lower class_run_task (message :: rest) w =
    match process_all lower class_run_task rest w1 with
    | (Return responses, w2) => (Return (response :: responses), w2)
    | (Raise e, w2) => (Raise e, w2)
    end.
Proof.
  intros H. cbn [process_all]. unfold bind. rewrite H.
  now destruct (process_all lower class_run_task rest w1) as [[rs|e] w2].
Qed.

Lemma process_all_charge (messages : list string) :
  forall w : World,
    context_size (coordinator w) = 2048 ->
    exists responses w',
      process_all lower class_run_task messages w = (Return responses, w') /\
      length responses = length messages /\
      context_size (coordinator w') = 2048 /\
      total_tokens_used (coordinator w') =
        total_tokens_used (coordinator w) +
        session_charge (map (_classify_task lower) messages) responses /\
      total_tokens_used (coordinator w) <= total_tokens_used (coordinator w').
Proof.
  induction messages as [|message rest IH]; intros w Hsize.
  - exists [], w. cbn. repeat split; lia.
  - destruct (process_request_charge message w Hsize)
      as [response [w1 [Hcall [Hsize1 [Htotal1 Hpos]]]]].
    destruct (IH w1 Hsize1)
      as [responses [w2 [Hrest [Hlen [Hsize2 [Htotal2 Hle]]]]]].
    exists (response :: responses), w2.
    rewrite (process_all_cons message rest w w1 response Hcall), Hrest.
    split; [reflexivity|].
    cbn [length map session_charge]. repeat split; lia.
Qed.

Lemma process_all_app (first more : list string) :
  forall w : World,
    context_size (coordinator w) = 2048 ->
    snd (process_all lower class_run_task (first ++ more)%list w) =
    snd (process_all lower class_run_task more
           (snd (process_all lower class_run_task first w))).
Proof.
  induction first as [|message rest IH]; intros w Hsize.
  - reflexivity.
  - destruct (process_request_charge message w Hsize)
      as [response [w1 [Hcall [Hsize1 _]]]].
    change ((message :: rest) ++ more)%list
      with (message :: (rest ++ more))%list.
    rewrite !(process_all_cons message _ w w1 response Hcall).
    specialize (IH w1 Hsize1).
    destruct (process_all lower class_run_task (rest ++ more)%list w1)
      as [[rs|e] w4];
      destruct (process_all lower class_run_task rest w1) as [[rs'|e'] w2];
      exact IH.
Qed.

End Accounting.

(** C6.  A session of any number of requests on a new coordinator runs to
    its end; [get_stats] then reports a cumulative count equal to the sum of
    the charges of the calls, each according to its branch (512, plus 100
    inline, 200 unknown, half the profile's budget on specialist success,
    nothing on an error response); and the count after a session never
    exceeds the count after a longer session that starts with it. *)
Theorem token_accounting
    (lower : string -> string) (messages : list string) (w : World) :
  (exists responses stats w' w'',
     (CoordinatorAgent__init__ ;; process_all lower class_run_task messages) w =
       (Return responses, w') /\
     length responses = length messages /\
     get_stats w' = (Return stats, w'') /\
     stats_total_tokens_used stats =
       session_charge (map (_classify_task lower) messages) responses) /\
  (forall more : list string,
     tokens_after lower messages w <=
     tokens_after lower (messages ++ more)%list w).
Proof.
  set (w0 := mkWorld (mkCoordinatorAgent 2048 0) (clock w) (ticks w) (heap w)
               (trace w)).
  assert (Hrun : forall ms,
            (CoordinatorAgent__init__ ;; process_all lower class_run_task ms) w =
            process_all lower class_run_task ms w0) by reflexivity.
  assert (Hsize : context_size (coordinator w0) = 2048) by reflexivity.
  split.
  - destruct (process_all_charge lower messages w0 Hsize)
      as [responses [w' [Hall [Hlen [_ [Htotal _]]]]]].
    exists responses,
      (mkStats (total_tokens_used (coordinator w'))
         (float_mul (float_of_int (total_tokens_used (coordinator w')))
            (float_literal (5 # 1000000)))),
      w', w'.
    rewrite Hrun. repeat split; try assumption.
  - intros more. unfold tokens_after. rewrite !Hrun.
    rewrite (process_all_app lower messages more w0 Hsize).
    destruct (process_all_charge lower messages w0 Hsize)
      as [responses [w1 [Hall [_ [Hsize1 _]]]]].
    rewrite Hall. cbn [snd].
    destruct (process_all_charge lower more w1 Hsize1)
      as [responses' [w2 [Hmore [_ [_ [_ Hle]]]]]].
    rewrite Hmore. exact Hle.
Qed.

(** C7.  On a new coordinator, when no more than 30 seconds pass between
    the creation of the handler and its execution, the request "Calculate Q1
    revenue" is answered by the finance specialist: the handler is built
    from the finance profile and reports 5000 / 2 = 2500 tokens, the
    response carries the label "finance_subagent" and the figure
    512 + 2500 = 3012, and the counter stands at 3012. *)
Theorem finance_scenario (w : World) :
  (clock w (S (ticks w)) - clock w (ticks w) <= inject_Z 30)%Q ->
  let out :=
    (CoordinatorAgent__init__ ;;
     process_request ascii_lower class_run_task "Calculate Q1 revenue") w in
  fst out =
    Return [ ("handler", PyStr "finance_subagent");
             ("role", PyStr "Finance Specialist");
             ("result", PyStr "[Simulated result for: Calculate Q1 revenue]");
             ("tokens_used", PyInt 3012);
             ("subagent_terminated", PyBool true) ] /\
  heap (snd out) =
    (heap w ++
     [mkSubagent (context_of finance_template "Calculate Q1 revenue")
        (clock w (ticks w)) true])%list /\
  dict_lookup "tokens_used"
    (_simulate_execution (context_of finance_template "Calculate Q1 revenue")) =
    Some (PyInt 2500) /\
  tpl_max_tokens finance_template / 2 = 2500 /\
  total_tokens_used (coordinator (snd out)) = 3012.
Proof.
  intros Hintime. apply float_sub_in_time in Hintime. cbv zeta.
  unfold bind at 1 2 3, CoordinatorAgent__init__, put_self.
  assert (Hc : _classify_task ascii_lower "Calculate Q1 revenue" = "finance")
    by reflexivity.
  assert (Ht : SUBAGENT_TEMPLATES !!
                 _classify_task ascii_lower "Calculate Q1 revenue" =
               Some finance_template) by reflexivity.
  rewrite (process_request_specialist ascii_lower class_run_task _
             finance_template _ Ht).
  rewrite (handle_with_subagent_eq class_run_task _ _ finance_template _ Ht).
  cbn [coordinator clock ticks heap trace]. rewrite Hintime, Hc.
  repeat split.
Qed.

Lemma finance_scenario_witness :
  let out :=
    (CoordinatorAgent__init__ ;;
     process_request ascii_lower class_run_task "Calculate Q1 revenue")
      (empty_world steady_clock) in
  fst out =
    Return [ ("handler", PyStr "finance_subagent");
             ("role", PyStr "Finance Specialist");
             ("result", PyStr "[Simulated result for: Calculate Q1 revenue]");
             ("tokens_used", PyInt 3012);
             ("subagent_terminated", PyBool true) ] /\
  heap (snd out) =
    ([] ++
     [mkSubagent (context_of finance_template "Calculate Q1 revenue")
        0%Q true])%list /\
  dict_lookup "tokens_used"
    (_simulate_execution (context_of finance_template "Calculate Q1 revenue")) =
    Some (PyInt 2500) /\
  tpl_max_tokens finance_template / 2 = 2500 /\
  total_tokens_used (coordinator (snd out)) = 3012.
Proof.
  apply (finance_scenario (empty_world steady_clock)).
  vm_compute. discriminate.
Defined.

(** ** Further properties: the data fetched for a handler *)

Lemma dict_lookup_set_eq {V} (k : string) (v : V) (d : Dict V) :
  dict_lookup k (dict_set k v d) = Some v.
Proof.
  induction d as [|[k' v'] d IH]; simpl.
  - now rewrite String.eqb_refl.
  - destruct (String.eqb k k') eqn:E; simpl.
    + now rewrite String.eqb_refl.
    + now rewrite E.
Qed.

Lemma dict_lookup_set_ne {V} (k k0 : string) (v : V) (d : Dict V) :
  k0 <> k -> dict_lookup k0 (dict_set k v d) = dict_lookup k0 d.
Proof.
  intros Hne. induction d as [|[k' v'] d IH]; simpl.
  - destruct (String.eqb_spec k0 k); [contradiction | reflexivity].
  - destruct (String.eqb_spec k k') as [->|Hkk']; simpl.
    + destruct (String.eqb_spec k0 k'); [contradiction | reflexivity].
    + destruct (String.eqb k0 k'); [reflexivity | exact IH].
Qed.

Lemma dict_keys_set_in {V} (k k0 : string) (v : V) (d : Dict V) :
  In k0 (dict_keys (dict_set k v d)) <-> k0 = k \/ In k0 (dict_keys d).
Proof.
  unfold dict_keys. induction d as [|[k' v'] d IH]; simpl.
  - intuition.
  - destruct (String.eqb_spec k k') as [->|Hkk']; simpl.
    + intuition.
    + rewrite IH. intuition.
Qed.

Lemma dict_keys_set_new {V} (k : string) (v : V) (d : Dict V) :
  ~ In k (dict_keys d) ->
  dict_keys (dict_set k v d) = (dict_keys d ++ [k])%list.
Proof.
  unfold dict_keys. induction d as [|[k' v'] d IH]; simpl; intros Hnew.
  - reflexivity.
  - destruct (String.eqb_spec k k') as [->|Hkk']; simpl.
    + exfalso. auto.
    + rewrite IH; auto.
Qed.

Lemma dict_keys_set_NoDup {V} (k : string) (v : V) (d : Dict V) :
  List.NoDup (dict_keys d) -> List.NoDup (dict_keys (dict_set k v d)).
Proof.
  unfold dict_keys. induction d as [|[k' v'] d IH]; simpl; intros Hnd.
  - repeat constructor. intros Hin. inversion Hin.
  - apply NoDup_cons_iff in Hnd. destruct Hnd as [Hnotin Hnd].
    destruct (String.eqb_spec k k') as [->|Hkk']; simpl.
    + apply NoDup_cons_iff. now split.
    + apply NoDup_cons_iff. split; [|now apply IH].
      intros Hin. apply (dict_keys_set_in k k' v d) in Hin.
      destruct Hin as [->|Hin]; [congruence | contradiction].
Qed.

Lemma fetch_fold_lookup (sources : list string) :
  forall (d : Dict string) (k : string),
    dict_lookup k (fold_left fetch_step sources d) =
      if existsb (String.eqb k) sources
      then Some ("[Sample data from " ++ k ++ "]")
      else dict_lookup k d.
Proof.
  induction sources as [|source rest IH]; intros d k; simpl; [reflexivity|].
  rewrite IH. destruct (existsb (String.eqb k) rest).
  - now rewrite orb_true_r.
  - rewrite orb_false_r. unfold fetch_step.
    destruct (String.eqb_spec k source) as [->|Hne].
    + apply dict_lookup_set_eq.
    + now apply dict_lookup_set_ne.
Qed.

Lemma fetch_fold_keys_in (sources : list string) :
  forall (d : Dict string) (k : string),
    In k (dict_keys (fold_left fetch_step sources d)) <->
    In k (dict_keys d) \/ In k sources.
Proof.
  induction sources as [|source rest IH]; intros d k; simpl.
  - intuition.
  - rewrite IH. unfold fetch_step. rewrite dict_keys_set_in. intuition.
Qed.

Lemma fetch_fold_NoDup (sources : list string) :
  forall d : Dict string,
    List.NoDup (dict_keys d) ->
    List.NoDup (dict_keys (fold_left fetch_step sources d)).
Proof.
  induction sources as [|source rest IH]; intros d Hnd; simpl; [assumption|].
  apply IH. unfold fetch_step. now apply dict_keys_set_NoDup.
Qed.

Lemma fetch_fold_keys_distinct (sources : list string) :
  forall d : Dict string,
    List.NoDup sources ->
    (forall k, In k sources -> ~ In k (dict_keys d)) ->
    dict_keys (fold_left fetch_step sources d) = (dict_keys d ++ sources)%list.
Proof.
  induction sources as [|source rest IH]; intros d Hnd Hfresh; simpl.
  - now rewrite app_nil_r.
  - apply NoDup_cons_iff in Hnd. destruct Hnd as [Hnotin Hnd].
    rewrite IH; [|assumption|].
    + unfold fetch_step. rewrite dict_keys_set_new by (apply Hfresh; now left).
      now rewrite <- app_assoc.
    + intros k Hin Hk. unfold fetch_step in Hk.
      apply dict_keys_set_in in Hk. destruct Hk as [->|Hk].
      * contradiction.
      * apply (Hfresh k); [now right | assumption].
Qed.

(** X1.  [_fetch_relevant_data] gives every requested source its
    placeholder text, and has no entry for a source that was not
    requested. *)
Theorem fetch_covers_requested (sources : list string) (source : string) :
  (In source sources ->
   dict_lookup source (_fetch_relevant_data sources) =
     Some ("[Sample data from " ++ source ++ "]")) /\
  (~ In source sources ->
   dict_lookup source (_fetch_relevant_data sources) = None).
Proof.
  unfold _fetch_relevant_data.
  change (fun (d : Dict string) (source0 : string) =>
            dict_set source0 ("[Sample data from " ++ source0 ++ "]") d)
    with fetch_step.
  rewrite fetch_fold_lookup. split; intros H.
  - replace (existsb (String.eqb source) sources) with true; [reflexivity|].
    symmetry. apply existsb_exists. exists source. split; [assumption|].
    apply String.eqb_refl.
  - destruct (existsb (String.eqb source) sources) eqn:E; [|reflexivity].
    apply existsb_exists in E. destruct E as [x [Hin Heq]].
    apply String.eqb_eq in Heq. subst x. contradiction.
Qed.

(** X2.  The dict [_fetch_relevant_data] returns has one entry per distinct
    source, however often a source is listed; when the sources are
    distinct its keys are the sources in the order given. *)
Theorem fetch_keys (sources : list string) :
  List.NoDup (dict_keys (_fetch_relevant_data sources)) /\
  (forall k, In k (dict_keys (_fetch_relevant_data sources)) <-> In k sources) /\
  (length (_fetch_relevant_data sources) <= length sources)%nat /\
  (List.NoDup sources -> dict_keys (_fetch_relevant_data sources) = sources).
Proof.
  unfold _fetch_relevant_data.
  change (fun (d : Dict string) (source0 : string) =>
            dict_set source0 ("[Sample data from " ++ source0 ++ "]") d)
    with fetch_step.
  assert (Hnd : List.NoDup (dict_keys (fold_left fetch_step sources []))).
  { apply fetch_fold_NoDup. constructor. }
  assert (Hin : forall k, In k (dict_keys (fold_left fetch_step sources [])) <->
                          In k sources).
  { intros k. rewrite fetch_fold_keys_in. simpl. intuition. }
  repeat split; try assumption; try apply Hin.
  - replace (length (fold_left fetch_step sources []))
      with (length (dict_keys (fold_left fetch_step sources [])))
      by (unfold dict_keys; apply length_map).
    apply NoDup_incl_length; [assumption|].
    intros k Hk. now apply Hin.
  - intros Hdistinct.
    now rewrite fetch_fold_keys_distinct by (assumption || (intros k _ [])).
Qed.

(** ** Further properties: the handler *)

(** X3.  With the class's own execution step, [execute] on a live handler
    raises the timeout exactly when the elapsed time it measures, the float
    difference of the two clock readings, is more than [timeout], and
    returns the simulated result exactly when it is at most [timeout], the
    boundary included.  Whenever the exact difference of the readings is at
    most [timeout] seconds (for [0 <= timeout <= 2^52]) the result is
    returned. *)
Theorem execute_timeout_boundary
    (w : World) (r : nat) (this : Subagent) (timeout : Z) :
  heap w !! r = Some this ->
  is_terminated this = false ->
  ((inject_Z timeout < float_sub (clock w (ticks w)) (start_time this))%Q <->
   fst (execute class_run_task r timeout w) = Raise (timeout_exceeded timeout)) /\
  ((float_sub (clock w (ticks w)) (start_time this) <= inject_Z timeout)%Q <->
   fst (execute class_run_task r timeout w) =
     Return (_simulate_execution (context this))) /\
  (0 <= timeout <= 2 ^ 52 ->
   (clock w (ticks w) - start_time this <= inject_Z timeout)%Q ->
   fst (execute class_run_task r timeout w) =
     Return (_simulate_execution (context this))).
Proof.
  intros H Hlive.
  rewrite (execute_eq class_run_task w r this timeout H), Hlive.
  destruct (Qgt_bool _ _) eqn:E; cbn [fst]; unfold class_run_task.
  - apply Qgt_bool_true in E. split; [|split].
    + split; auto.
    + split; [|discriminate].
      intros Hle. exfalso. now apply (Qlt_not_le _ _ E).
    + intros Ht Hle. exfalso. apply (Qlt_not_le _ _ E).
      unfold float_sub. now apply round_double_le.
  - apply Qgt_bool_false in E. split; [|split].
    + split; [|discriminate].
      intros Hlt. exfalso. now apply (Qlt_not_le _ _ Hlt).
    + split; auto.
    + auto.
Qed.

(** At the readings of [edge_clock] the exact difference is more than 30
    seconds, the float difference is 30, and [execute] returns the
    result. *)
Lemma execute_timeout_boundary_witness :
  let w := snd (Subagent__init__ sample_context (empty_world edge_clock)) in
  fst (execute class_run_task 0 30 w) =
    Return (_simulate_execution sample_context) /\
  (inject_Z 30 < edge_clock 1 - edge_clock 0)%Q.
Proof.
  split.
  - apply (proj1 (proj2
             (execute_timeout_boundary
                (snd (Subagent__init__ sample_context (empty_world edge_clock)))
                0 (mkSubagent sample_context (edge_clock 0) false) 30
                eq_refl eq_refl))).
    vm_compute. discriminate.
  - now vm_compute.
Defined.

(** X4.  Whatever the execution step does, [execute] changes no object:
    the coordinator and every handler are as before, so it never charges
    tokens and never sets a termination flag.  It reads the clock at most
    once. *)
Theorem execute_changes_no_object
    (run_task : SubagentContext -> Outcome (Dict PyVal))
    (w : World) (r : nat) (timeout : Z) :
  coordinator (snd (execute run_task r timeout w)) = coordinator w /\
  heap (snd (execute run_task r timeout w)) = heap w /\
  clock (snd (execute run_task r timeout w)) = clock w /\
  (ticks (snd (execute run_task r timeout w)) = ticks w \/
   ticks (snd (execute run_task r timeout w)) = S (ticks w)).
Proof.
  destruct (heap w !! r) as [this|] eqn:H.
  - rewrite (execute_eq run_task w r this timeout H).
    destruct (is_terminated this); [cbn; auto|].
    destruct (Qgt_bool _ _); cbn; auto.
  - unfold execute, bind, log, deref. cbn. rewrite H. cbn. auto.
Qed.

(** X5.  [terminate] touches one handler only: every other handler is as
    before, the handler itself keeps its context and creation time and has
    its flag set, no handler is added or removed, and the coordinator and
    the clock are as before. *)
Theorem terminate_touches_one_handler (w : World) (r : nat) (this : Subagent) :
  heap w !! r = Some this ->
  (forall r' : nat,
     r' <> r -> heap (snd (terminate r w)) !! r' = heap w !! r') /\
  length (heap (snd (terminate r w))) = length (heap w) /\
  (exists this',
     heap (snd (terminate r w)) !! r = Some this' /\
     context this' = context this /\
     start_time this' = start_time this /\
     is_terminated this' = true) /\
  coordinator (snd (terminate r w)) = coordinator w /\
  clock (snd (terminate r w)) = clock w /\
  ticks (snd (terminate r w)) = ticks w.
Proof.
  intros H. rewrite (terminate_eq w r this H).
  cbn [snd heap coordinator clock ticks].
  repeat split.
  - intros r' Hne. apply list_lookup_insert_ne. congruence.
  - apply length_insert.
  - eexists. split.
    + apply list_lookup_insert_eq. now apply lookup_lt_Some in H.
    + repeat split.
Qed.

Lemma terminate_touches_one_handler_witness :
  let w :=
    snd ((Subagent__init__ sample_context ;; Subagent__init__ sample_context)
           (empty_world slow_clock)) in
  (forall r' : nat,
     r' <> 1%nat -> heap (snd (terminate 1 w)) !! r' = heap w !! r') /\
  length (heap (snd (terminate 1 w))) = length (heap w) /\
  (exists this',
     heap (snd (terminate 1 w)) !! 1%nat = Some this' /\
     context this' = sample_context /\
     start_time this' = slow_clock 1 /\
     is_terminated this' = true) /\
  coordinator (snd (terminate 1 w)) = coordinator w /\
  clock (snd (terminate 1 w)) = clock w /\
  ticks (snd (terminate 1 w)) = ticks w.
Proof.
  apply (terminate_touches_one_handler
           (snd ((Subagent__init__ sample_context ;;
                  Subagent__init__ sample_context) (empty_world slow_clock)))
           1 (mkSubagent sample_context (slow_clock 1) false)).
  reflexivity.
Defined.

(** ** Further properties: requests *)

Lemma template_key (agent_type : string) (template : Template) :
  SUBAGENT_TEMPLATES !! agent_type = Some template ->
  (agent_type = "finance" /\ template = finance_template) \/
  (agent_type = "developer" /\ template = developer_template) \/
  (agent_type = "content" /\ template = content_template).
Proof.
  unfold SUBAGENT_TEMPLATES. rewrite !lookup_insert_Some, lookup_empty.
  intros [[<- <-] | [_ [[<- <-] | [_ [[<- <-] | [_ Hnone]]]]]]; auto.
  discriminate.
Qed.

Lemma classify_without_template (lower : string -> string) (message : string) :
  SUBAGENT_TEMPLATES !! _classify_task lower message = None <->
  (_classify_task lower message = "simple" \/
   _classify_task lower message = "unknown").
Proof.
  destruct (classify_cases lower message)
    as [[_ Hc] | [[_ [_ Hc]] | [[_ [_ [_ Hc]]] | [[_ [_ [_ [_ Hc]]]]
       | [_ [_ [_ [_ Hc]]]]]]]];
    cbv zeta in Hc; rewrite Hc;
    (split; [intros H; vm_compute in H; try discriminate; auto
            | intros [H | H]; try discriminate H; reflexivity]).
Qed.

Section Dispatch.

Variable lower : string -> string.
Variable run_task : SubagentContext -> Outcome (Dict PyVal).

(** What a request leaves in the heap: nothing new, or one handler, which
    is terminated. *)
Lemma process_request_heap (message : string) (w : World) :
  exists new : list Subagent,
    heap (snd (process_request lower run_task message w)) =
      (heap w ++ new)%list /\
    all_terminated new /\ (length new <= 1)%nat.
Proof.
  rewrite process_request_eq. cbv zeta.
  destruct (String.eqb _ "simple").
  { exists []. rewrite handle_simple_task_eq. cbn.
    rewrite app_nil_r. repeat split; [constructor | lia]. }
  destruct (SUBAGENT_TEMPLATES !! _) as [template|] eqn:H.
  2:{ exists []. rewrite handle_unknown_task_eq. cbn.
      rewrite app_nil_r. repeat split; [constructor | lia]. }
  rewrite (handle_with_subagent_eq run_task _ message template _ H).
  cbn [coordinator clock ticks heap trace].
  eexists [_].
  destruct (Qgt_bool _ _);
    [|destruct (run_task _) as [result|e];
      [destruct (int_of _); [destruct (dict_lookup "result" result)|]|]];
    (split; [reflexivity | split; [repeat constructor | cbn; lia]]).
Qed.

Lemma process_all_heap (messages : list string) :
  forall w : World,
    exists new : list Subagent,
      heap (snd (process_all lower run_task messages w)) =
        (heap w ++ new)%list /\
      all_terminated new /\ (length new <= length messages)%nat.
Proof.
  induction messages as [|message rest IH]; intros w.
  - exists []. cbn. rewrite app_nil_r. repeat split; [constructor | lia].
  - destruct (process_request_heap message w) as [new1 [Hheap1 [Hall1 Hlen1]]].
    cbn [process_all]. unfold bind at 1.
    destruct (process_request lower run_task message w) as [[response|e] w1].
    + destruct (IH w1) as [new2 [Hheap2 [Hall2 Hlen2]]].
      exists (new1 ++ new2)%list. cbn [snd] in Hheap1. unfold bind at 1.
      destruct (process_all lower run_task rest w1) as [[responses|e] w2];
        unfold ret; cbn [snd] in *; rewrite Hheap2, Hheap1, <- app_assoc;
        (repeat split; [now apply Forall_app | rewrite length_app; cbn; lia]).
    + exists new1. cbn [snd] in *.
      repeat split; [assumption.. | cbn; lia].
Qed.

End Dispatch.

(** X6.  Whatever the execution step does, a session leaves no live handler
    behind: if every handler was terminated before, every handler is
    terminated after any list of requests, the old handlers are still there,
    and at most one handler per request was added. *)
Theorem session_leaves_no_live_handler
    (lower : string -> string)
    (run_task : SubagentContext -> Outcome (Dict PyVal))
    (messages : list string) (w : World) :
  all_terminated (heap w) ->
  all_terminated (heap (snd (process_all lower run_task messages w))) /\
  exists new : list Subagent,
    heap (snd (process_all lower run_task messages w)) = (heap w ++ new)%list /\
    (length new <= length messages)%nat.
Proof.
  intros Hold.
  destruct (process_all_heap lower run_task messages w)
    as [new [Hheap [Hnew Hlen]]].
  split.
  - rewrite Hheap. now apply Forall_app.
  - now exists new.
Qed.

Lemma session_leaves_no_live_handler_witness :
  let w := empty_world slow_clock in
  let messages := ["Calculate Q1 revenue"; "hello"; "Review the last commit"] in
  all_terminated
    (heap (snd (process_all ascii_lower failing_step messages w))) /\
  exists new : list Subagent,
    heap (snd (process_all ascii_lower failing_step messages w)) =
      (heap w ++ new)%list /\
    (length new <= length messages)%nat.
Proof.
  apply (session_leaves_no_live_handler ascii_lower failing_step
           ["Calculate Q1 revenue"; "hello"; "Review the last commit"]
           (empty_world slow_clock)).
  constructor.
Defined.

(** X7.  The coordinator answers by itself exactly when the category is
    "simple" or "unknown": then the response is labelled "main_agent", no
    handler is created, the clock is not read and no handler method is
    called.  For every other category a profile exists, and one handler is
    created from it, with the request text unchanged as its task, the clock
    reading as its creation time, and the clock read twice. *)
Theorem dispatch_or_answer
    (lower : string -> string)
    (run_task : SubagentContext -> Outcome (Dict PyVal))
    (message : string) (w : World) :
  let c := _classify_task lower message in
  let out := process_request lower run_task message w in
  ((c = "simple" \/ c = "unknown") ->
   (exists response,
      fst out = Return response /\
      dict_lookup "handler" response = Some (PyStr "main_agent")) /\
   heap (snd out) = heap w /\
   ticks (snd out) = ticks w /\
   trace (snd out) = trace w) /\
  (~ (c = "simple" \/ c = "unknown") ->
   exists template,
     SUBAGENT_TEMPLATES !! c = Some template /\
     heap (snd out) =
       (heap w ++
        [mkSubagent (context_of template message) (clock w (ticks w)) true])%list /\
     ticks (snd out) = S (S (ticks w))).
Proof.
  cbv zeta. split.
  - intros Hc. apply classify_without_template in Hc.
    rewrite process_request_eq. cbv zeta. rewrite Hc.
    destruct (String.eqb _ "simple").
    + rewrite handle_simple_task_eq. cbn. repeat split. eexists. now split.
    + rewrite handle_unknown_task_eq. cbn. repeat split. eexists. now split.
  - intros Hc.
    destruct (SUBAGENT_TEMPLATES !! _classify_task lower message)
      as [template|] eqn:H.
    2:{ exfalso. apply Hc. now apply classify_without_template. }
    exists template. split; [reflexivity|].
    rewrite (process_request_specialist lower run_task message template w H).
    rewrite (handle_with_subagent_eq run_task _ message template _ H).
    cbn [coordinator clock ticks heap trace].
    destruct (Qgt_bool _ _);
      [|destruct (run_task _) as [result|e];
        [destruct (int_of _); [destruct (dict_lookup "result" result)|]|]];
      split; reflexivity.
Qed.

(** ** Further properties: the classifier on short and on extended texts *)

Lemma string_append_assoc (a b c : string) : (a ++ b) ++ c = a ++ b ++ c.
Proof.
  induction a as [|x a IH]; [reflexivity|].
  change (String x (((a ++ b)) ++ c) = String x (a ++ b ++ c)).
  now rewrite IH.
Qed.

Lemma string_append_empty (a : string) : a ++ "" = a.
Proof.
  induction a as [|x a IH]; [reflexivity|].
  change (String x (a ++ "") = String x a). now rewrite IH.
Qed.

Lemma string_length_append (a b : string) :
  String.length (a ++ b) = (String.length a + String.length b)%nat.
Proof.
  induction a as [|x a IH]; [reflexivity|].
  change (S (String.length (a ++ b)) = S (String.length a + String.length b)).
  now rewrite IH.
Qed.

Lemma ascii_lower_append (a b : string) :
  ascii_lower (a ++ b) = ascii_lower a ++ ascii_lower b.
Proof.
  induction a as [|x a IH]; [reflexivity|].
  change (String (lower_char x) (ascii_lower (a ++ b)) =
          String (lower_char x) (ascii_lower a ++ ascii_lower b)).
  now rewrite IH.
Qed.

Lemma ascii_lower_length (s : string) :
  String.length (ascii_lower s) = String.length s.
Proof. induction s as [|x s IH]; [reflexivity | simpl; now rewrite IH]. Qed.

Lemma occurs_length (word s : string) :
  occurs word s -> (String.length word <= String.length s)%nat.
Proof.
  intros [before [after ->]]. rewrite !string_length_append. lia.
Qed.

Lemma occurs_extend (word s before after : string) :
  occurs word s -> occurs word (before ++ s ++ after).
Proof.
  intros [b [a ->]]. exists (before ++ b), (a ++ after).
  now rewrite !string_append_assoc.
Qed.

Lemma matches_extend (words : list string) (s before after : string) :
  matches words s -> matches words (before ++ s ++ after).
Proof.
  intros [word [Hin Hocc]]. exists word. split; [assumption|].
  now apply occurs_extend.
Qed.

(** No keyword is shorter than two characters. *)
Lemma matches_needs_two (words : list string) (s : string) :
  In words [finance_words; developer_words; content_words; simple_words] ->
  matches words s -> (2 <= String.length s)%nat.
Proof.
  intros Hwords [word [Hin Hocc]]. apply occurs_length in Hocc.
  assert (2 <= String.length word)%nat; [|lia].
  simpl in Hwords.
  repeat (destruct Hwords as [<- | Hwords];
          [simpl in Hin;
           repeat (destruct Hin as [<- | Hin]; [simpl; lia|]);
           contradiction|]).
  contradiction.
Qed.

Lemma join_contains (sep x : string) (parts : list string) :
  In x parts -> exists before after, str_join sep parts = before ++ x ++ after.
Proof.
  induction parts as [|part rest IH]; intros Hin; [contradiction|].
  destruct Hin as [-> | Hin].
  - destruct rest as [|next rest].
    + exists "", "". change (x = x ++ ""). now rewrite string_append_empty.
    + exists "", (sep ++ str_join sep (next :: rest)). reflexivity.
  - destruct rest as [|next rest]; [contradiction|].
    destruct (IH Hin) as [before [after Heq]].
    exists (part ++ sep ++ before), after.
    change (str_join sep (part :: next :: rest))
      with (part ++ sep ++ str_join sep (next :: rest)).
    now rewrite Heq, !string_append_assoc.
Qed.

(** The category of an extended text is never later in the order of the
    tests than the category of the text. *)
Lemma classify_rank_extend (message before after : string) :
  (category_rank (_classify_task ascii_lower (before ++ message ++ after)) <=
   category_rank (_classify_task ascii_lower message))%nat.
Proof.
  pose proof (classify_cases ascii_lower (before ++ message ++ after)) as Hext.
  pose proof (classify_cases ascii_lower message) as Hmsg.
  cbv zeta in Hext, Hmsg. rewrite !ascii_lower_append in Hext.
  set (s := ascii_lower message) in *.
  set (la := ascii_lower before) in *. set (lb := ascii_lower after) in *.
  pose proof (matches_extend finance_words s la lb) as Hf.
  pose proof (matches_extend developer_words s la lb) as Hd.
  pose proof (matches_extend content_words s la lb) as Hc.
  pose proof (matches_extend simple_words s la lb) as Hs.
  destruct Hmsg as [[? ->] | [[? [? ->]] | [[? [? [? ->]]]
                  | [[? [? [? [? ->]]]] | [? [? [? [? ->]]]]]]]];
    destruct Hext as [[? ->] | [[? [? ->]] | [[? [? [? ->]]]
                    | [[? [? [? [? ->]]]] | [? [? [? [? ->]]]]]]]];
    try (vm_compute; lia); exfalso; tauto.
Qed.

(** X8.  A text of fewer than two characters, the empty text included, is
    classified "unknown". *)
Theorem short_message_is_unknown (message : string) :
  (String.length message < 2)%nat ->
  _classify_task ascii_lower message = "unknown".
Proof.
  intros Hshort.
  assert (Hno : forall words,
            In words [finance_words; developer_words; content_words;
                      simple_words] ->
            ~ matches words (ascii_lower message)).
  { intros words Hin Hm. apply (matches_needs_two words _ Hin) in Hm.
    rewrite ascii_lower_length in Hm. lia. }
  destruct (classify_cases ascii_lower message)
    as [[Hm _] | [[_ [Hm _]] | [[_ [_ [Hm _]]] | [[_ [_ [_ [Hm _]]]]
       | [_ [_ [_ [_ Hc]]]]]]]]; [exfalso .. | exact Hc];
    revert Hm; apply Hno; simpl; auto.
Qed.

Lemma short_message_is_unknown_witness :
  _classify_task ascii_lower "" = "unknown".
Proof.
  apply (short_message_is_unknown ""). simpl. lia.
Defined.

(** X9.  Text added before or after a message never moves it to a category
    tested later: the category of the longer text comes at the same place
    or earlier in the order finance, developer, content, simple, unknown.
    In particular a finance message stays a finance message. *)
Theorem classify_extension_never_demotes (message before after : string) :
  (category_rank (_classify_task ascii_lower (before ++ message ++ after)) <=
   category_rank (_classify_task ascii_lower message))%nat /\
  (_classify_task ascii_lower message = "finance" ->
   _classify_task ascii_lower (before ++ message ++ after) = "finance").
Proof.
  split; [apply classify_rank_extend|].
  intros Hfin. pose proof (classify_rank_extend message before after) as Hle.
  rewrite Hfin in Hle.
  destruct (classify_cases ascii_lower (before ++ message ++ after))
    as [[_ Hc] | [[_ [_ Hc]] | [[_ [_ [_ Hc]]] | [[_ [_ [_ [_ Hc]]]]
       | [_ [_ [_ [_ Hc]]]]]]]];
    cbv zeta in Hc; rewrite Hc in *; [reflexivity | exfalso ..];
    vm_compute in Hle; lia.
Qed.

(** X10.  Given at least one argument, the entry point makes one request of
    the arguments joined by single spaces, on a new coordinator; the
    category of that request is never later in the order of the tests than
    the category any single argument would get alone. *)
Theorem main_joins_arguments
    (run_task : SubagentContext -> Outcome (Dict PyVal))
    (argv : list string) (arg : string) (w : World) :
  In arg (tail argv) ->
  main ascii_lower run_task argv w =
    (CoordinatorAgent__init__ ;;
     result <- process_request ascii_lower run_task
                 (str_join " " (tail argv)) ;;
     ret (inl result)) w /\
  (category_rank (_classify_task ascii_lower (str_join " " (tail argv))) <=
   category_rank (_classify_task ascii_lower arg))%nat.
Proof.
  intros Hin. split.
  - unfold main. destruct argv as [|program [|first rest]];
      [contradiction | contradiction | reflexivity].
  - destruct (join_contains " " arg (tail argv) Hin) as [before [after ->]].
    apply classify_rank_extend.
Qed.

Lemma main_joins_arguments_witness :
  main ascii_lower class_run_task
    ["coordinator.py"; "Calculate"; "Q1"; "revenue"]
    (empty_world steady_clock) =
    (CoordinatorAgent__init__ ;;
     result <- process_request ascii_lower class_run_task
                 (str_join " " ["Calculate"; "Q1"; "revenue"]) ;;
     ret (inl result)) (empty_world steady_clock) /\
  (category_rank
     (_classify_task ascii_lower (str_join " " ["Calculate"; "Q1"; "revenue"])) <=
   category_rank (_classify_task ascii_lower "revenue"))%nat.
Proof.
  apply (main_joins_arguments class_run_task
           ["coordinator.py"; "Calculate"; "Q1"; "revenue"] "revenue"
           (empty_world steady_clock)).
  simpl. auto.
Defined.

(** ** Further properties: the cost of a session and the report *)

Lemma call_charge_bounds (task_type : string) (response : Dict PyVal) :
  call_charge task_type timeout_response <= call_charge task_type response /\
  call_charge task_type response <= call_charge task_type [] /\
  512 <= call_charge task_type timeout_response /\
  call_charge task_type [] <= 4512.
Proof.
  unfold call_charge. destruct (String.eqb task_type "simple"); [lia|].
  destruct (SUBAGENT_TEMPLATES !! task_type) as [template|] eqn:H; [|lia].
  change (dict_mem "error" timeout_response) with true.
  change (dict_mem "error" (@nil (string * PyVal))) with false.
  cbv iota.
  destruct (template_in_table _ _ H) as [-> | [-> | ->]];
    destruct (dict_mem "error" response); vm_compute;
    repeat split; discriminate.
Qed.

Lemma session_charge_bounds (task_types : list string) :
  forall responses : list (Dict PyVal),
    length responses = length task_types ->
    fold_right Z.add 0
      (map (fun c => call_charge c timeout_response) task_types) <=
      session_charge task_types responses /\
    session_charge task_types responses <=
      fold_right Z.add 0 (map (fun c => call_charge c []) task_types) /\
    512 * Z.of_nat (length task_types) <=
      session_charge task_types responses /\
    session_charge task_types responses <=
      4512 * Z.of_nat (length task_types).
Proof.
  induction task_types as [|c rest IH]; intros responses Hlen.
  - destruct responses; cbn; lia.
  - destruct responses as [|response responses]; [discriminate|].
    injection Hlen as Hlen. specialize (IH responses Hlen).
    pose proof (call_charge_bounds c response).
    cbn [session_charge map fold_right length]. lia.
Qed.

Section Report.

Variable lower : string -> string.

(** One line of the second loop of the report accounts for the growth of
    the counter: the figure it shows, plus the base cost when it shows no
    handler. *)
Lemma process_request_row (message shown : string) (w : World) :
  context_size (coordinator w) = 2048 ->
  exists response w',
    process_request lower class_run_task message w = (Return response, w') /\
    context_size (coordinator w') = 2048 /\
    total_tokens_used (coordinator w') =
      total_tokens_used (coordinator w) +
      call_charge (_classify_task lower message) response /\
    call_charge (_classify_task lower message) response =
      rows_tokens
        [(shown, dict_get response "tokens_used" (PyInt 0),
          dict_get response "handler" (PyStr "unknown"))] +
      512 * rows_without_handler
        [(shown, dict_get response "tokens_used" (PyInt 0),
          dict_get response "handler" (PyStr "unknown"))].
Proof.
  intros Hsize. rewrite process_request_eq. cbv zeta. unfold call_charge.
  destruct (String.eqb _ "simple").
  { rewrite handle_simple_task_eq. eexists _, _. split; [reflexivity|].
    cbn. rewrite Hsize. change (2048 / 4) with 512. repeat split; lia. }
  destruct (SUBAGENT_TEMPLATES !! _) as [template|] eqn:H.
  2:{ rewrite handle_unknown_task_eq. eexists _, _. split; [reflexivity|].
      cbn. rewrite Hsize. change (2048 / 4) with 512. repeat split; lia. }
  rewrite (handle_with_subagent_eq class_run_task _ message template _ H).
  cbn [coordinator clock ticks heap trace].
  destruct (Qgt_bool _ _).
  { eexists _, _. split; [reflexivity|].
    cbn. rewrite Hsize. change (2048 / 4) with 512. repeat split; lia. }
  unfold class_run_task, _simulate_execution.
  cbn [dict_get dict_lookup String.eqb Ascii.eqb Bool.eqb int_of].
  eexists _, _. split; [reflexivity|].
  destruct (template_key _ _ H) as [[-> ->] | [[-> ->] | [-> ->]]];
    cbn; rewrite Hsize; change (2048 / 4) with 512;
    repeat split; try reflexivity; lia.
Qed.

Lemma coordinator_loop_account (tasks : list string) :
  forall w : World,
    context_size (coordinator w) = 2048 ->
    exists rows responses w',
      coordinator_loop lower class_run_task tasks w = (Return rows, w') /\
      length rows = length tasks /\
      length responses = length tasks /\
      context_size (coordinator w') = 2048 /\
      total_tokens_used (coordinator w') =
        total_tokens_used (coordinator w) +
        session_charge (map (_classify_task lower) tasks) responses /\
      total_tokens_used (coordinator w') =
        total_tokens_used (coordinator w) +
        rows_tokens rows + 512 * rows_without_handler rows.
Proof.
  induction tasks as [|task rest IH]; intros w Hsize.
  - exists [], [], w. cbn. repeat split; lia.
  - destruct (process_request_row task (substring 0 50 task) w Hsize)
      as [response [w1 [Hcall [Hsize1 [Htotal1 Hrow]]]]].
    destruct (IH w1 Hsize1)
      as [rows [responses [w2 [Hrest [Hlen [Hlen' [Hsize2 [Hsum Hrows]]]]]]]].
    exists ((substring 0 50 task,
             dict_get response "tokens_used" (PyInt 0),
             dict_get response "handler" (PyStr "unknown")) :: rows),
           (response :: responses), w2.
    cbn [coordinator_loop]. unfold bind at 1. rewrite Hcall.
    unfold bind at 1. rewrite Hrest.
    split; [reflexivity|].
    cbn [length map session_charge].
    repeat split; try lia.
    cbn [rows_tokens rows_without_handler] in Hrow |- *. lia.
Qed.

End Report.

(** X11.  A session of [K] requests on a new coordinator, with the class's
    own execution step and any clock, runs to its end, and [get_stats] then
    reports a count between [512 K] and [4512 K] tokens. *)
Theorem session_cost_bounds
    (lower : string -> string) (messages : list string) (w : World) :
  exists stats w',
    (CoordinatorAgent__init__ ;;
     process_all lower class_run_task messages ;;
     get_stats) w = (Return stats, w') /\
    512 * Z.of_nat (length messages) <= stats_total_tokens_used stats /\
    stats_total_tokens_used stats <= 4512 * Z.of_nat (length messages).
Proof.
  set (w0 := mkWorld (mkCoordinatorAgent 2048 0) (clock w) (ticks w) (heap w)
               (trace w)).
  destruct (process_all_charge lower messages w0 eq_refl)
    as [responses [w' [Hall [Hlen [_ [Htotal _]]]]]].
  destruct (session_charge_bounds (map (_classify_task lower) messages)
              responses) as [_ [_ [Hlo Hhi]]].
  { now rewrite length_map. }
  rewrite length_map in Hlo, Hhi.
  change (total_tokens_used (coordinator w0)) with 0 in Htotal.
  eexists _, w'. split.
  { change ((CoordinatorAgent__init__ ;;
             process_all lower class_run_task messages ;; get_stats) w)
      with ((process_all lower class_run_task messages ;; get_stats) w0).
    unfold bind at 1. rewrite Hall. reflexivity. }
  cbn [stats_total_tokens_used].
  rewrite Htotal. split; lia.
Qed.

(** X12.  In the report's second loop on a new coordinator, the total that
    [get_stats] gives equals the sum of the figures shown on the lines plus
    512 for every line that shows the handler "unknown": a request that
    ends in an error is shown with 0 tokens although its base cost was
    counted. *)
Theorem report_lines_account
    (lower : string -> string) (tasks : list string) (w : World) :
  exists rows w',
    (CoordinatorAgent__init__ ;; coordinator_loop lower class_run_task tasks) w =
      (Return rows, w') /\
    length rows = length tasks /\
    total_tokens_used (coordinator w') =
      rows_tokens rows + 512 * rows_without_handler rows.
Proof.
  set (w0 := mkWorld (mkCoordinatorAgent 2048 0) (clock w) (ticks w) (heap w)
               (trace w)).
  destruct (coordinator_loop_account lower tasks w0 eq_refl)
    as [rows [responses [w' [Hloop [Hlen [_ [_ [_ Hrows]]]]]]]].
  exists rows, w'. repeat split; try assumption.
Qed.

Section InTime.

Variable lower : string -> string.

Lemma process_request_inline
    (run_task : SubagentContext -> Outcome (Dict PyVal))
    (message : string) (w : World) :
  _classify_task lower message = "simple" ->
  process_request lower run_task message w =
    (Return [ ("handler", PyStr "main_agent");
              ("response", PyStr ("Quick answer to: " ++ message));
              ("tokens_used", PyInt (context_size (coordinator w) / 4 + 100)) ],
     mkWorld
       (charged (charged (coordinator w) (context_size (coordinator w) / 4)) 100)
       (clock w) (ticks w) (heap w) (trace w)).
Proof.
  intros Hc. rewrite process_request_eq. cbv zeta. rewrite Hc.
  reflexivity.
Qed.

(** A dispatch that stays within the timeout, path by path of the
    execution step. *)
Lemma process_request_dispatch
    (run_task : SubagentContext -> Outcome (Dict PyVal))
    (message : string) (template : Template) (w : World) :
  SUBAGENT_TEMPLATES !! _classify_task lower message = Some template ->
  (clock w (S (ticks w)) - clock w (ticks w) <= inject_Z 30)%Q ->
  let self := charged (coordinator w) (context_size (coordinator w) / 4) in
  let r := length (heap w) in
  let after c :=
    mkWorld c (clock w) (S (S (ticks w)))
      (heap w ++
       [mkSubagent (context_of template message) (clock w (ticks w)) true])%list
      (EvTerminate r :: EvSimulate r :: EvExecute r :: trace w) in
  process_request lower run_task message w =
    match run_task (context_of template message) with
    | Raise e =>
        (if isinstance_TimeoutError e then Return timeout_response
         else if isinstance_Exception e then Return (fault_response e)
         else Raise e,
         after self)
    | Return result =>
        match int_of (dict_get result "tokens_used" (PyInt 2000)) with
        | None => (Return (fault_response type_error), after self)
        | Some n =>
            match dict_lookup "result" result with
            | None =>
                (Return (fault_response (key_error "result")),
                 after (charged self n))
            | Some text =>
                (Return
                   (specialist_response (_classify_task lower message)
                      template text (context_size (coordinator w) / 4 + n)),
                 after (charged self n))
            end
        end
    end.
Proof.
  intros H Hintime. apply float_sub_in_time in Hintime. cbv zeta.
  rewrite (process_request_specialist lower run_task message template w H).
  rewrite (handle_with_subagent_eq run_task _ message template _ H).
  cbn [coordinator clock ticks heap trace context_size charged].
  rewrite Hintime. reflexivity.
Qed.

End InTime.

(** X13.  Whatever the clock reads, the report computes 15000 tokens for
    the single agent on its five tasks and a saving, the difference with
    the coordinator's count, between 1340 and 12340 tokens. *)
Theorem report_savings_bounds (w : World) :
  exists report w',
    compare_token_usage ascii_lower class_run_task w = (Return report, w') /\
    cmp_single_agent_tokens report = 15000 /\
    length (cmp_coordinator_rows report) = 5%nat /\
    cmp_savings_tokens report = 15000 - cmp_total_tokens_used report /\
    1340 <= cmp_savings_tokens report /\
    cmp_savings_tokens report <= 12340.
Proof.
  set (w0 := mkWorld (mkCoordinatorAgent 2048 0) (clock w) (ticks w) (heap w)
               (trace w)).
  destruct (coordinator_loop_account ascii_lower test_tasks w0 eq_refl)
    as [rows [responses [w' [Hloop [Hlen [Hlen' [_ [Hsum _]]]]]]]].
  destruct (session_charge_bounds
              (map (_classify_task ascii_lower) test_tasks) responses)
    as [Hlo [Hhi _]].
  { now rewrite length_map. }
  change (total_tokens_used (coordinator w0)) with 0 in Hsum.
  set (total := total_tokens_used (coordinator w')) in *.
  set (charge := session_charge _ responses) in *.
  vm_compute in Hlo, Hhi.
  assert (Hlo' : 2660 <= charge) by exact Hlo.
  assert (Hhi' : charge <= 13660) by exact Hhi.
  eexists _, w'. split.
  { unfold compare_token_usage, compare_token_usage_on.
    change ((CoordinatorAgent__init__ ;; ?k) w) with (k w0).
    unfold bind at 1. rewrite Hloop. reflexivity. }
  cbn [cmp_single_agent_tokens cmp_coordinator_rows cmp_savings_tokens
       cmp_total_tokens_used stats_total_tokens_used].
  fold total. change (fst (single_agent_loop 10000 test_tasks)) with 15000.
  repeat split; try assumption; lia.
Qed.

Lemma coordinator_loop_cons
    (lower : string -> string) (task : string) (rest : list string)
    (w w1 : World) (response : Dict PyVal) :
  process_request lower class_run_task task w = (Return response, w1) ->
  coordinator_loop lower class_run_task (task :: rest) w =
    match coordinator_loop lower class_run_task rest w1 with
    | (Return rows, w2) =>
        (Return ((substring 0 50 task,
                  dict_get response "tokens_used" (PyInt 0),
                  dict_get response "handler" (PyStr "unknown")) :: rows),
         w2)
    | (Raise e, w2) => (Raise e, w2)
    end.
Proof.
  intros H. cbn [coordinator_loop]. unfold bind. rewrite H.
  now destruct (coordinator_loop lower class_run_task rest w1) as [[rows|e] w2].
Qed.

(** A dispatch with the class's own step that stays within the timeout. *)
Lemma process_request_success
    (lower : string -> string) (message : string) (template : Template)
    (w : World) :
  SUBAGENT_TEMPLATES !! _classify_task lower message = Some template ->
  (clock w (S (ticks w)) - clock w (ticks w) <= inject_Z 30)%Q ->
  process_request lower class_run_task message w =
    (Return
       (specialist_response (_classify_task lower message) template
          (PyStr ("[Simulated result for: " ++ message ++ "]"))
          (context_size (coordinator w) / 4 + tpl_max_tokens template / 2)),
     mkWorld
       (charged (charged (coordinator w) (context_size (coordinator w) / 4))
          (tpl_max_tokens template / 2))
       (clock w) (S (S (ticks w)))
       (heap w ++
        [mkSubagent (context_of template message) (clock w (ticks w)) true])%list
       (EvTerminate (length (heap w)) :: EvSimulate (length (heap w)) ::
        EvExecute (length (heap w)) :: trace w)).
Proof.
  intros H Hintime.
  now rewrite (process_request_dispatch lower class_run_task message template
                 w H Hintime).
Qed.

(** X14.  When no dispatch of the report times out, the report shows 3000
    tokens per task for the single agent, the figures 612, 3012, 4512, 2512
    and 3012 with their handlers for the coordinator, a total of 13660
    against 15000, and a saving of 1340 tokens. *)
Theorem report_without_timeout (w : World) :
  in_time (clock w) (ticks w) 4 ->
  exists w',
    compare_token_usage ascii_lower class_run_task w =
      (Return
         (mkComparison
            [ ("Hi, what can you help with?", 3000);
              ("Calculate Q1 revenue", 3000);
              ("Review the last commit", 3000);
              ("Draft a tweet about AI agents", 3000);
              ("What's our profit margin?", 3000) ]
            15000
            [ ("Hi, what can you help with?", PyInt 612, PyStr "main_agent");
              ("Calculate Q1 revenue", PyInt 3012, PyStr "finance_subagent");
              ("Review the last commit", PyInt 4512,
               PyStr "developer_subagent");
              ("Draft a tweet about AI agents", PyInt 2512,
               PyStr "content_subagent");
              ("What's our profit margin?", PyInt 3012,
               PyStr "finance_subagent") ]
            13660
            1340),
       w').
Proof.
  intros Hin.
  assert (H0 := Hin 0%nat ltac:(lia)).
  assert (H1 := Hin 1%nat ltac:(lia)).
  assert (H2 := Hin 2%nat ltac:(lia)).
  assert (H3 := Hin 3%nat ltac:(lia)).
  replace (ticks w + 2 * 0)%nat with (ticks w) in H0 by lia.
  replace (ticks w + 2 * 1)%nat with (S (S (ticks w))) in H1 by lia.
  replace (ticks w + 2 * 2)%nat with (S (S (S (S (ticks w))))) in H2 by lia.
  replace (ticks w + 2 * 3)%nat
    with (S (S (S (S (S (S (ticks w))))))) in H3 by lia.
  set (w0 := mkWorld (mkCoordinatorAgent 2048 0) (clock w) (ticks w) (heap w)
               (trace w)).
  assert (Hloop : exists w1,
            coordinator_loop ascii_lower class_run_task test_tasks w0 =
              (Return
                 [ ("Hi, what can you help with?", PyInt 612,
                    PyStr "main_agent");
                   ("Calculate Q1 revenue", PyInt 3012,
                    PyStr "finance_subagent");
                   ("Review the last commit", PyInt 4512,
                    PyStr "developer_subagent");
                   ("Draft a tweet about AI agents", PyInt 2512,
                    PyStr "content_subagent");
                   ("What's our profit margin?", PyInt 3012,
                    PyStr "finance_subagent") ],
               w1) /\
            total_tokens_used (coordinator w1) = 13660).
  { eexists. split.
    - unfold test_tasks.
      erewrite coordinator_loop_cons
        by (apply process_request_inline; reflexivity).
      erewrite coordinator_loop_cons
        by (apply (process_request_success ascii_lower _ finance_template);
            [reflexivity | exact H0]).
      erewrite coordinator_loop_cons
        by (apply (process_request_success ascii_lower _ developer_template);
            [reflexivity | exact H1]).
      erewrite coordinator_loop_cons
        by (apply (process_request_success ascii_lower _ content_template);
            [reflexivity | exact H2]).
      erewrite coordinator_loop_cons
        by (apply (process_request_success ascii_lower _ finance_template);
            [reflexivity | exact H3]).
      reflexivity.
    - reflexivity. }
  destruct Hloop as [w1 [Hloop Htotal]].
  exists w1.
  unfold compare_token_usage, compare_token_usage_on.
  change ((CoordinatorAgent__init__ ;; ?k) w) with (k w0).
  unfold bind at 1. rewrite Hloop.
  unfold bind, get_self, get_stats, bind, get_self, ret.
  cbn [stats_total_tokens_used]. rewrite Htotal. reflexivity.
Qed.

Lemma report_without_timeout_witness :
  exists w',
    compare_token_usage ascii_lower class_run_task (empty_world even_clock) =
      (Return
         (mkComparison
            [ ("Hi, what can you help with?", 3000);
              ("Calculate Q1 revenue", 3000);
              ("Review the last commit", 3000);
              ("Draft a tweet about AI agents", 3000);
              ("What's our profit margin?", 3000) ]
            15000
            [ ("Hi, what can you help with?", PyInt 612, PyStr "main_agent");
              ("Calculate Q1 revenue", PyInt 3012, PyStr "finance_subagent");
              ("Review the last commit", PyInt 4512,
               PyStr "developer_subagent");
              ("Draft a tweet about AI agents", PyInt 2512,
               PyStr "content_subagent");
              ("What's our profit margin?", PyInt 3012,
               PyStr "finance_subagent") ]
            13660
            1340),
       w').
Proof.
  apply (report_without_timeout (empty_world even_clock)).
  intros k Hk.
  destruct k as [|[|[|[|k]]]]; [vm_compute; discriminate .. | lia].
Defined.

(** ** Further properties: execution steps other than the class's own *)

(** X15.  The tokens a handler reports are added to the counter before the
    result text is read: when the result of the execution step has a token
    count but no "result" entry, the response is the fault response for the
    missing key, and the counter has nonetheless grown by the base cost and
    the reported tokens. *)
Theorem tokens_charged_before_result_read
    (lower : string -> string)
    (run_task : SubagentContext -> Outcome (Dict PyVal))
    (message : string) (template : Template) (result : Dict PyVal) (n : Z)
    (w : World) :
  SUBAGENT_TEMPLATES !! _classify_task lower message = Some template ->
  (clock w (S (ticks w)) - clock w (ticks w) <= inject_Z 30)%Q ->
  run_task (context_of template message) = Return result ->
  int_of (dict_get result "tokens_used" (PyInt 2000)) = Some n ->
  dict_lookup "result" result = None ->
  fst (process_request lower run_task message w) =
    Return [ ("error", PyStr "'result'");
             ("fallback",
              PyStr "Something went wrong, please rephrase or try again") ] /\
  total_tokens_used (coordinator (snd (process_request lower run_task message w))) =
    total_tokens_used (coordinator w) + context_size (coordinator w) / 4 + n.
Proof.
  intros H Hintime Hrun Hint Hmissing.
  rewrite (process_request_dispatch lower run_task message template w H
             Hintime).
  cbv zeta. rewrite Hrun, Hint, Hmissing. split; reflexivity.
Qed.

Lemma tokens_charged_before_result_read_witness :
  fst (process_request ascii_lower step_without_result "Calculate Q1 revenue"
         (empty_world steady_clock)) =
    Return [ ("error", PyStr "'result'");
             ("fallback",
              PyStr "Something went wrong, please rephrase or try again") ] /\
  total_tokens_used
    (coordinator
       (snd (process_request ascii_lower step_without_result
               "Calculate Q1 revenue" (empty_world steady_clock)))) =
    0 + 2048 / 4 + 700.
Proof.
  apply (tokens_charged_before_result_read ascii_lower step_without_result
           "Calculate Q1 revenue" finance_template
           [("tokens_used", PyInt 700)] 700 (empty_world steady_clock)).
  - reflexivity.
  - vm_compute. discriminate.
  - reflexivity.
  - reflexivity.
  - reflexivity.
Defined.

(** X16.  When the result of the execution step has no token count, 2000
    tokens are charged for the handler: the response is a specialist result
    whose figure is the base cost plus 2000, and the counter grows by the
    same amount. *)
Theorem missing_token_count_costs_2000
    (lower : string -> string)
    (run_task : SubagentContext -> Outcome (Dict PyVal))
    (message : string) (template : Template) (result : Dict PyVal)
    (text : PyVal) (w : World) :
  SUBAGENT_TEMPLATES !! _classify_task lower message = Some template ->
  (clock w (S (ticks w)) - clock w (ticks w) <= inject_Z 30)%Q ->
  run_task (context_of template message) = Return result ->
  dict_lookup "tokens_used" result = None ->
  dict_lookup "result" result = Some text ->
  fst (process_request lower run_task message w) =
    Return [ ("handler", PyStr (_classify_task lower message ++ "_subagent"));
             ("role", PyStr (tpl_role template));
             ("result", text);
             ("tokens_used", PyInt (context_size (coordinator w) / 4 + 2000));
             ("subagent_terminated", PyBool true) ] /\
  total_tokens_used (coordinator (snd (process_request lower run_task message w))) =
    total_tokens_used (coordinator w) + context_size (coordinator w) / 4 + 2000.
Proof.
  intros H Hintime Hrun Hmissing Htext.
  rewrite (process_request_dispatch lower run_task message template w H
             Hintime).
  cbv zeta. rewrite Hrun. unfold dict_get. rewrite Hmissing, Htext.
  split; reflexivity.
Qed.

Lemma missing_token_count_costs_2000_witness :
  fst (process_request ascii_lower step_without_tokens "Calculate Q1 revenue"
         (empty_world steady_clock)) =
    Return [ ("handler",
              PyStr (_classify_task ascii_lower "Calculate Q1 revenue" ++
                     "_subagent"));
             ("role", PyStr (tpl_role finance_template));
             ("result", PyStr "done");
             ("tokens_used", PyInt (2048 / 4 + 2000));
             ("subagent_terminated", PyBool true) ] /\
  total_tokens_used
    (coordinator
       (snd (process_request ascii_lower step_without_tokens
               "Calculate Q1 revenue" (empty_world steady_clock)))) =
    0 + 2048 / 4 + 2000.
Proof.
  apply (missing_token_count_costs_2000 ascii_lower step_without_tokens
           "Calculate Q1 revenue" finance_template
           [("result", PyStr "done")] (PyStr "done")
           (empty_world steady_clock)).
  - reflexivity.
  - vm_compute. discriminate.
  - reflexivity.
  - reflexivity.
  - reflexivity.
Defined.

(** X17.  When the execution step raises within the timeout, a timeout
    error gives the timeout response, any other exception of class
    [Exception] gives a fault response carrying the exception's text, and
    an exception outside [Exception] is raised again; in all three cases
    only the base cost is charged and the handler is left terminated. *)
Theorem step_fault_is_reported
    (lower : string -> string)
    (run_task : SubagentContext -> Outcome (Dict PyVal))
    (message : string) (template : Template) (e : Exn) (w : World) :
  SUBAGENT_TEMPLATES !! _classify_task lower message = Some template ->
  (clock w (S (ticks w)) - clock w (ticks w) <= inject_Z 30)%Q ->
  run_task (context_of template message) = Raise e ->
  fst (process_request lower run_task message w) =
    (if isinstance_TimeoutError e then
       Return [ ("error", PyStr "Subagent timeout");
                ("fallback",
                 PyStr "Task took too long, please try again or break into smaller steps") ]
     else if isinstance_Exception e then
       Return [ ("error", PyStr (exn_str e));
                ("fallback",
                 PyStr "Something went wrong, please rephrase or try again") ]
     else Raise e) /\
  total_tokens_used (coordinator (snd (process_request lower run_task message w))) =
    total_tokens_used (coordinator w) + context_size (coordinator w) / 4 /\
  heap (snd (process_request lower run_task message w)) =
    (heap w ++
     [mkSubagent (context_of template message) (clock w (ticks w)) true])%list.
Proof.
  intros H Hintime Hrun.
  rewrite (process_request_dispatch lower run_task message template w H
             Hintime).
  cbv zeta. rewrite Hrun. repeat split.
Qed.

Lemma step_fault_is_reported_witness :
  fst (process_request ascii_lower failing_step "Calculate Q1 revenue"
         (empty_world steady_clock)) =
    (if isinstance_TimeoutError (mkExn OtherException "connection lost") then
       Return [ ("error", PyStr "Subagent timeout");
                ("fallback",
                 PyStr "Task took too long, please try again or break into smaller steps") ]
     else if isinstance_Exception (mkExn OtherException "connection lost") then
       Return [ ("error", PyStr "connection lost");
                ("fallback",
                 PyStr "Something went wrong, please rephrase or try again") ]
     else Raise (mkExn OtherException "connection lost")) /\
  total_tokens_used
    (coordinator
       (snd (process_request ascii_lower failing_step "Calculate Q1 revenue"
               (empty_world steady_clock)))) =
    0 + 2048 / 4 /\
  heap (snd (process_request ascii_lower failing_step "Calculate Q1 revenue"
               (empty_world steady_clock))) =
    ([] ++
     [mkSubagent (context_of finance_template "Calculate Q1 revenue")
        (steady_clock 0) true])%list.
Proof.
  apply (step_fault_is_reported ascii_lower failing_step
           "Calculate Q1 revenue" finance_template
           (mkExn OtherException "connection lost")
           (empty_world steady_clock)).
  - reflexivity.
  - vm_compute. discriminate.
  - reflexivity.
Defined.
